(** * MCPRegistry: the registry store and the MCP client

    A shallow embedding of [MCPRegistry.py]: the JSON registry file
    ([load_saved_servers], [save_servers]) and the [MCPClient] class
    ([__init__], [connect_to_server], [get_server_info], [list_tools]),
    together with the parts of the Python runtime they rest on
    ([str.endswith], [str.rstrip], [dict], [json.loads], [json.dumps],
    [requests.Response]), and the blocks of [main] that read and write
    the registry or connect over HTTP.

    The texts the program handles (URLs, names, the contents of the file
    and of a response) are modelled by [string]: sequences of code points
    below 256.  The strings [json.loads] builds are sequences of code
    points without that bound ([pystr]), since an escape can name any
    code point. *)

From Stdlib Require Import String Ascii List NArith ZArith Lia Bool DecimalString.
Import ListNotations.
Open Scope string_scope.

(* ================================================================= *)
(** ** Python strings *)

(** The double quote character (code point 34). *)
Definition dquote : ascii := Eval compute in ascii_of_nat 34.

Definition backslash : ascii := Eval compute in ascii_of_nat 92.

(** [c in chars]. *)
Fixpoint mem_char (c : ascii) (chars : string) : bool :=
  match chars with
  | EmptyString => false
  | String d r => Ascii.eqb c d || mem_char c r
  end.

(** [s.endswith(suffix)]. *)
Fixpoint endswith (s suffix : string) : bool :=
  if String.eqb s suffix then true
  else match s with
       | EmptyString => false
       | String _ r => endswith r suffix
       end.

(** [s.rstrip(chars)]: [s] without its longest tail made of characters
    of [chars]. *)
Fixpoint rstrip (s chars : string) : string :=
  match s with
  | EmptyString => EmptyString
  | String c r =>
      match rstrip r chars with
      | EmptyString => if mem_char c chars then EmptyString else String c EmptyString
      | r' => String c r'
      end
  end.

(** [sep.join(parts)]. *)
Fixpoint join (sep : string) (parts : list string) : string :=
  match parts with
  | [] => ""
  | [p] => p
  | p :: ps => p ++ sep ++ join sep ps
  end.

(** [str(n)] for an integer. *)
Definition str_of_Z (n : Z) : string := NilZero.string_of_int (Z.to_int n).

(* ================================================================= *)
(** ** Python dictionaries

    A [dict] keeps its keys in insertion order and holds each key once:
    an association list, updated in place when the key is present. *)

Definition pydict (V : Type) : Type := list (string * V).

Fixpoint dict_set {V : Type} (d : pydict V) (k : string) (v : V) : pydict V :=
  match d with
  | [] => [(k, v)]
  | (k', v') :: r =>
      if String.eqb k' k then (k', v) :: r else (k', v') :: dict_set r k v
  end.

Fixpoint dict_get {V : Type} (d : pydict V) (k : string) : option V :=
  match d with
  | [] => None
  | (k', v') :: r => if String.eqb k' k then Some v' else dict_get r k
  end.

Fixpoint dict_del {V : Type} (d : pydict V) (k : string) : pydict V :=
  match d with
  | [] => []
  | (k', v') :: r => if String.eqb k' k then r else (k', v') :: dict_del r k
  end.

Definition dict_keys {V : Type} (d : pydict V) : list string := map fst d.

(** [dict(pairs)]: a later pair overrides the value of an earlier one. *)
Definition dict_of_pairs {V : Type} (ps : list (string * V)) : pydict V :=
  fold_left (fun d kv => dict_set d (fst kv) (snd kv)) ps [].

(* ================================================================= *)
(** ** JSON values, [json.loads] and [json.dumps] *)

Module Json.

(** A [str] as the decoder builds it: its code points.  An escape can
    name any code point, so these strings are not bounded by 255. *)
Definition pystr : Type := list N.

(** The [str] of a text of the model. *)
Fixpoint codes (s : string) : pystr :=
  match s with
  | EmptyString => []
  | String c r => N_of_ascii c :: codes r
  end.

Fixpoint pystr_eqb (a b : pystr) : bool :=
  match a, b with
  | [], [] => true
  | x :: a', y :: b' => N.eqb x y && pystr_eqb a' b'
  | _, _ => false
  end.

(** The members of a decoded object: a [dict] keyed by such strings. *)
Fixpoint obj_set {V : Type} (d : list (pystr * V)) (k : pystr) (v : V)
  : list (pystr * V) :=
  match d with
  | [] => [(k, v)]
  | (k', v') :: r =>
      if pystr_eqb k' k then (k', v) :: r else (k', v') :: obj_set r k v
  end.

Fixpoint obj_get {V : Type} (d : list (pystr * V)) (k : pystr) : option V :=
  match d with
  | [] => None
  | (k', v') :: r => if pystr_eqb k' k then Some v' else obj_get r k
  end.

(** [dict(pairs)]: a later pair overrides the value of an earlier one. *)
Definition obj_of_pairs {V : Type} (ps : list (pystr * V)) : list (pystr * V) :=
  fold_left (fun d kv => obj_set d (fst kv) (snd kv)) ps [].

(** What [json.loads] builds.  A number keeps the text of its literal. *)
#[warnings="-register-all"]
Inductive json : Type :=
| JNull
| JBool (b : bool)
| JNum (literal : string)
| JString (s : pystr)
| JArr (items : list json)
| JObject (members : list (pystr * json)).

(** The string and the object whose characters are those of a text of
    the model. *)
Definition JStr (s : string) : json := JString (codes s).

Definition JObj (members : pydict json) : json :=
  JObject (map (fun kv => (codes (fst kv), snd kv)) members).

(** *** Decoder *)

(** Why the decoder gives up: the text is not JSON ([JSONDecodeError]);
    its containers are nested deeper than the interpreter has room for
    ([RecursionError]); an integer literal has more digits than [int]
    converts ([ValueError]). *)
Inductive decode_error : Type :=
| Malformed
| TooDeep (container : string)
| TooManyDigits (digits : nat).

Inductive decoded (A : Type) : Type :=
| Decoded (a : A)
| Refused (e : decode_error).
Arguments Decoded {A} a.
Arguments Refused {A} e.

Definition is_ws (c : ascii) : bool :=
  match c with
  | " "%char | "009"%char | "010"%char | "013"%char => true
  | _ => false
  end.

Fixpoint skip_ws (s : string) : string :=
  match s with
  | String c r => if is_ws c then skip_ws r else s
  | EmptyString => s
  end.

Definition is_digit (c : ascii) : bool :=
  let n := N_of_ascii c in ((48 <=? n) && (n <=? 57))%N.

Definition hex_val (c : ascii) : option N :=
  let n := N_of_ascii c in
  if ((48 <=? n) && (n <=? 57))%N then Some (n - 48)%N
  else if ((97 <=? n) && (n <=? 102))%N then Some (n - 87)%N
  else if ((65 <=? n) && (n <=? 70))%N then Some (n - 55)%N
  else None.

Definition hex4 (h1 h2 h3 h4 : ascii) : option N :=
  match hex_val h1, hex_val h2, hex_val h3, hex_val h4 with
  | Some a, Some b, Some c, Some d => Some (((a * 16 + b) * 16 + c) * 16 + d)%N
  | _, _, _, _ => None
  end.

(** The character a one-letter escape stands for. *)
Definition unescape (e : ascii) : option ascii :=
  if Ascii.eqb e dquote then Some dquote
  else if Ascii.eqb e backslash then Some backslash
  else match e with
       | "/"%char => Some "/"%char
       | "b"%char => Some "008"%char
       | "f"%char => Some "012"%char
       | "n"%char => Some "010"%char
       | "r"%char => Some "013"%char
       | "t"%char => Some "009"%char
       | _ => None
       end.

Definition cons_code (n : N) (r : option (pystr * string)) : option (pystr * string) :=
  match r with
  | Some (t, rest) => Some (n :: t, rest)
  | None => None
  end.

Definition is_high_surrogate (n : N) : bool := ((55296 <=? n) && (n <=? 56319))%N.

Definition is_low_surrogate (n : N) : bool := ((56320 <=? n) && (n <=? 57343))%N.

(** The code point a surrogate pair stands for. *)
Definition join_surrogates (high low : N) : N :=
  (65536 + (high - 55296) * 1024 + (low - 56320))%N.

(** [scanstring], strict mode, entered after the opening quote: the
    decoded string and the text after the closing quote; [None] is
    [JSONDecodeError].  An escape [\uXXXX] gives the code point it names;
    a high surrogate followed by the escape of a low one gives the code
    point of the pair, and stays as it is otherwise. *)
Fixpoint scanstring (s : string) : option (pystr * string) :=
  match s with
  | EmptyString => None
  | String c r =>
      if Ascii.eqb c dquote then Some ([], r)
      else if Ascii.eqb c backslash then
        match r with
        | EmptyString => None
        | String e r1 =>
            match unescape e with
            | Some ch => cons_code (N_of_ascii ch) (scanstring r1)
            | None =>
                if Ascii.eqb e "u" then
                  match r1 with
                  | String h1 (String h2 (String h3 (String h4 r2))) =>
                      match hex4 h1 h2 h3 h4 with
                      | Some n =>
                          if is_high_surrogate n then
                            match r2 with
                            | String b (String u
                                (String h5 (String h6 (String h7 (String h8 r3))))) =>
                                if Ascii.eqb b backslash && Ascii.eqb u "u" then
                                  match hex4 h5 h6 h7 h8 with
                                  | Some low =>
                                      if is_low_surrogate low
                                      then cons_code (join_surrogates n low) (scanstring r3)
                                      else cons_code n (scanstring r2)
                                  | None => None
                                  end
                                else cons_code n (scanstring r2)
                            | _ => cons_code n (scanstring r2)
                            end
                          else cons_code n (scanstring r2)
                      | None => None
                      end
                  | _ => None
                  end
                else None
            end
        end
      else if (N_of_ascii c <? 32)%N then None
      else cons_code (N_of_ascii c) (scanstring r)
  end.

(** The longest prefix of digits, and what follows it. *)
Fixpoint span_digits (s : string) : string * string :=
  match s with
  | String c r =>
      if is_digit c then let (ds, rest) := span_digits r in (String c ds, rest)
      else ("", s)
  | EmptyString => ("", s)
  end.

(** [NUMBER_RE]: an optional minus sign and either a single zero or a
    digit from 1 to 9 followed by digits; then, optionally, a point and
    at least one digit; then, optionally, an exponent mark, a sign and at
    least one digit. *)
Definition scan_int (s : string) : option (string * string) :=
  let (sign, r) := match s with
                   | String "-" r => ("-", r)
                   | _ => ("", s)
                   end in
  match r with
  | String c r1 =>
      if Ascii.eqb c "0" then Some (sign ++ "0", r1)
      else if is_digit c then
        let (ds, r2) := span_digits r1 in Some (sign ++ String c ds, r2)
      else None
  | EmptyString => None
  end.

Definition scan_frac (s : string) : string * string :=
  match s with
  | String "." r =>
      match span_digits r with
      | (EmptyString, _) => ("", s)
      | (ds, rest) => (String "." ds, rest)
      end
  | _ => ("", s)
  end.

Definition scan_exp (s : string) : string * string :=
  match s with
  | String e r =>
      if Ascii.eqb e "e" || Ascii.eqb e "E" then
        let (sign, r1) := match r with
                          | String "+" r1 => ("+", r1)
                          | String "-" r1 => ("-", r1)
                          | _ => ("", r)
                          end in
        match span_digits r1 with
        | (EmptyString, _) => ("", s)
        | (ds, rest) => (String e (sign ++ ds), rest)
        end
      else ("", s)
  | EmptyString => ("", s)
  end.

(** [sys.get_int_max_str_digits()], at its default. *)
Definition int_max_str_digits : N := 4300.

(** The digits of an integer literal: its length without the sign. *)
Definition int_digits (literal : string) : nat :=
  match literal with
  | String "-" r => String.length r
  | _ => String.length literal
  end.

(** A number: a literal with a fraction or an exponent goes to [float],
    which takes any length; one without goes to [int], which refuses more
    than [int_max_str_digits] digits. *)
Definition scan_number (s : string) : decoded (string * string) :=
  match scan_int s with
  | Some (i, r) =>
      let (f, r1) := scan_frac r in
      let (e, r2) := scan_exp r1 in
      match f, e with
      | EmptyString, EmptyString =>
          if (int_max_str_digits <? N.of_nat (int_digits i))%N
          then Refused (TooManyDigits (int_digits i))
          else Decoded (i ++ f ++ e, r2)
      | _, _ => Decoded (i ++ f ++ e, r2)
      end
  | None => Refused Malformed
  end.

(** [s] starts with [word]: what follows it. *)
Fixpoint strip_prefix (word s : string) : option string :=
  match word, s with
  | EmptyString, _ => Some s
  | String a w, String b r => if Ascii.eqb a b then strip_prefix w r else None
  | String _ _, EmptyString => None
  end.

(** The constants and numbers of [scan_once]: tried in the decoder's
    order once the value is neither a string, an object nor an array. *)
Definition scan_atom (s : string) : decoded (json * string) :=
  match strip_prefix "null" s with
  | Some r => Decoded (JNull, r)
  | None =>
  match strip_prefix "true" s with
  | Some r => Decoded (JBool true, r)
  | None =>
  match strip_prefix "false" s with
  | Some r => Decoded (JBool false, r)
  | None =>
  match scan_number s with
  | Decoded (lit, r) => Decoded (JNum lit, r)
  | Refused Malformed =>
      match strip_prefix "NaN" s with
      | Some r => Decoded (JNum "NaN", r)
      | None =>
      match strip_prefix "Infinity" s with
      | Some r => Decoded (JNum "Infinity", r)
      | None =>
      match strip_prefix "-Infinity" s with
      | Some r => Decoded (JNum "-Infinity", r)
      | None => Refused Malformed
      end end end
  | Refused e => Refused e
  end end end end.

(** [scan_once], [JSONObject] and [JSONArray].  [scan_pairs] is entered
    after the opening quote of a key, [scan_items] at the first character
    of an item.  Every call spends one unit of [fuel]; of two calls in a
    row at least one reads a character, so twice the length of the text
    is enough.  [room] is the number of containers that can still be
    entered, one inside the other, before the interpreter's recursion
    limit is reached: entering an object or an array takes one. *)
Fixpoint scan_once (fuel room : nat) (s : string) : decoded (json * string) :=
  match fuel with
  | O => Refused Malformed
  | S f =>
      match s with
      | EmptyString => Refused Malformed
      | String c r =>
          if Ascii.eqb c dquote then
            match scanstring r with
            | Some (t, rest) => Decoded (JString t, rest)
            | None => Refused Malformed
            end
          else if Ascii.eqb c "{" then
            match room with
            | O => Refused (TooDeep "object")
            | S inner =>
                match skip_ws r with
                | String c1 r1 =>
                    if Ascii.eqb c1 "}" then Decoded (JObject [], r1)
                    else if Ascii.eqb c1 dquote then
                      match scan_pairs f inner r1 with
                      | Decoded (ps, rest) => Decoded (JObject (obj_of_pairs ps), rest)
                      | Refused e => Refused e
                      end
                    else Refused Malformed
                | EmptyString => Refused Malformed
                end
            end
          else if Ascii.eqb c "[" then
            match room with
            | O => Refused (TooDeep "array")
            | S inner =>
                match skip_ws r with
                | String c1 r1 =>
                    if Ascii.eqb c1 "]" then Decoded (JArr [], r1)
                    else
                      match scan_items f inner (String c1 r1) with
                      | Decoded (xs, rest) => Decoded (JArr xs, rest)
                      | Refused e => Refused e
                      end
                | EmptyString => Refused Malformed
                end
            end
          else scan_atom s
      end
  end

with scan_pairs (fuel room : nat) (s : string) : decoded (list (pystr * json) * string) :=
  match fuel with
  | O => Refused Malformed
  | S f =>
      match scanstring s with
      | None => Refused Malformed
      | Some (k, r) =>
          match skip_ws r with
          | String ":" r1 =>
              match scan_once f room (skip_ws r1) with
              | Refused e => Refused e
              | Decoded (v, r2) =>
                  match skip_ws r2 with
                  | String c3 r3 =>
                      if Ascii.eqb c3 "}" then Decoded ([(k, v)], r3)
                      else if Ascii.eqb c3 "," then
                        match skip_ws r3 with
                        | String c4 r4 =>
                            if Ascii.eqb c4 dquote then
                              match scan_pairs f room r4 with
                              | Decoded (ps, rest) => Decoded ((k, v) :: ps, rest)
                              | Refused e => Refused e
                              end
                            else Refused Malformed
                        | EmptyString => Refused Malformed
                        end
                      else Refused Malformed
                  | EmptyString => Refused Malformed
                  end
              end
          | _ => Refused Malformed
          end
      end
  end

with scan_items (fuel room : nat) (s : string) : decoded (list json * string) :=
  match fuel with
  | O => Refused Malformed
  | S f =>
      match scan_once f room s with
      | Refused e => Refused e
      | Decoded (v, r) =>
          match skip_ws r with
          | String c1 r1 =>
              if Ascii.eqb c1 "]" then Decoded ([v], r1)
              else if Ascii.eqb c1 "," then
                match scan_items f room (skip_ws r1) with
                | Decoded (xs, rest) => Decoded (v :: xs, rest)
                | Refused e => Refused e
                end
              else Refused Malformed
          | EmptyString => Refused Malformed
          end
      end
  end.

(** [json.loads(s)] in an interpreter that has [room] for nested
    containers. *)
Definition loads (room : nat) (s : string) : decoded json :=
  match scan_once (2 * String.length s + 2) room (skip_ws s) with
  | Decoded (v, rest) =>
      match skip_ws rest with
      | EmptyString => Decoded v
      | String _ _ => Refused Malformed
      end
  | Refused e => Refused e
  end.

(** *** Encoder ([ensure_ascii=True]) *)

Definition hex_digit (n : N) : ascii :=
  if (n <? 10)%N then ascii_of_N (48 + n) else ascii_of_N (87 + n).

(** [ESCAPE_ASCII]: everything but the printable ASCII characters other
    than the quote and the backslash is escaped. *)
Definition escape_char (c : ascii) : string :=
  if Ascii.eqb c dquote then String backslash (String dquote "")
  else if Ascii.eqb c backslash then "\\"
  else match c with
       | "010"%char => "\n"
       | "013"%char => "\r"
       | "009"%char => "\t"
       | "008"%char => "\b"
       | "012"%char => "\f"
       | _ =>
           let n := N_of_ascii c in
           if ((32 <=? n) && (n <=? 126))%N then String c ""
           else "\u00" ++ String (hex_digit (n / 16)) (String (hex_digit (n mod 16)) "")
       end.

Fixpoint escape (s : string) : string :=
  match s with
  | EmptyString => ""
  | String c r => escape_char c ++ escape r
  end.

(** [json.dumps(s)] for a [str]. *)
Definition dumps_str (s : string) : string :=
  String dquote (escape s ++ String dquote "").

Definition newline : string := String "010"%char "".

(** [json.dumps(d, indent=2)] for a [dict] with [str] keys: the items,
    one per line behind [indent], joined by a comma, between braces; the
    closing brace stands behind [outdent].  An empty [dict] is [{}]. *)
Definition dumps_item {V : Type} (dump : V -> string) (indent : string)
    (kv : string * V) : string :=
  indent ++ dumps_str (fst kv) ++ ": " ++ dump (snd kv).

Definition dumps_dict {V : Type} (dump : V -> string) (indent outdent : string)
    (d : pydict V) : string :=
  match d with
  | [] => "{}"
  | _ =>
      "{" ++ newline
      ++ join ("," ++ newline) (map (dumps_item dump indent) d)
      ++ newline ++ outdent ++ "}"
  end.

(** A [Dict[str, str]] met one level down. *)
Definition dumps_descriptor (d : pydict string) : string :=
  dumps_dict dumps_str "    " "  " d.

(** [json.dumps(servers, indent=2)] for a [Dict[str, Dict[str, str]]]. *)
Definition dumps_servers (m : pydict (pydict string)) : string :=
  dumps_dict dumps_descriptor "  " "" m.

(** The value a [Dict[str, Dict[str, str]]] is, as [json.loads] builds it. *)
Definition of_dict {V : Type} (value : V -> json) (d : pydict V) : json :=
  JObj (map (fun kv => (fst kv, value (snd kv))) d).

Definition of_descriptor (d : pydict string) : json := of_dict JStr d.

Definition of_servers (m : pydict (pydict string)) : json := of_dict of_descriptor m.

End Json.
Export Json.

(* ================================================================= *)
(** ** Exceptions, effects and the outside world *)

(** The transport failures [requests.get] raises; all of them are
    subclasses of [requests.RequestException]. *)
Inductive request_failure : Type :=
| ConnectionError
| Timeout
| MissingSchema
| InvalidURL
| TooManyRedirects.

(** The exceptions met in the program.  [HTTPError] is raised by
    [raise_for_status]; [RequestsJSONDecodeError] is
    [requests.exceptions.JSONDecodeError], raised by [Response.json] and
    a subclass of [RequestException]; [JSONDecodeError] is the one of the
    [json] module, a [ValueError]. *)
Inductive exn : Type :=
| ValueError (msg : string)
| AttributeError (type_name attr : string)
| TypeError (msg : string)
| OSError (msg : string)
| RecursionError (msg : string)
| JSONDecodeError
| RequestError (k : request_failure)
| HTTPError (status : Z) (msg : string)
| RequestsJSONDecodeError
| McpError (msg : string).

(** [isinstance(e, requests.RequestException)]. *)
Definition is_RequestException (e : exn) : bool :=
  match e with
  | RequestError _ | HTTPError _ _ | RequestsJSONDecodeError => true
  | _ => false
  end.

(** [isinstance(e, Exception)]. *)
Definition is_Exception (e : exn) : bool := true.

Record StdioServerParameters : Type := {
  sp_command : string;
  sp_args : list string;
  sp_env : option (pydict string)
}.

(** The two streams [stdio_client] yields. *)
Record Transport : Type := {
  read_stream : nat;
  write_stream : nat
}.

(** [ClientSession(read, write)]. *)
Record ClientSession : Type := {
  session_read : nat;
  session_write : nat
}.

Record Tool : Type := {
  tool_name : string;
  tool_payload : json
}.

Record ListToolsResult : Type := {
  tools : list Tool
}.

(** [requests.Response]. *)
Record Response : Type := {
  status_code : Z;
  reason : string;
  url : string;
  text : string
}.

(** What the program does to the outside world, in order. *)
Inductive event : Type :=
| EvHttpGet (target : string)
| EvStError (prefix : string) (cause : exn)
| EvPrint (header : string) (names : list string)
| EvSpawn (params : StdioServerParameters)
| EvSessionOpen (t : Transport)
| EvInitialize (s : ClientSession)
| EvListTools (s : ClientSession).

Inductive open_mode : Type := ReadMode | WriteMode.

(** How the outside world answers, given what happened so far. *)
Record World : Type := {
  (** [requests.get(url)] *)
  requests_get : list event -> string -> request_failure + Response;
  (** entering [stdio_client(params)]: the process is launched *)
  stdio_client : list event -> StdioServerParameters -> exn + Transport;
  (** [session.initialize()] *)
  session_initialize : list event -> ClientSession -> option exn;
  (** [session.list_tools()] *)
  session_list_tools : list event -> ClientSession -> exn + ListToolsResult;
  (** [open("mcp_servers.json", mode)]: the error it raises, if any *)
  open_error : list event -> open_mode -> option exn;
  (** how many containers, beyond the two of a registry, [json] can still
      nest before the interpreter's recursion limit is reached *)
  json_room : list event -> nat
}.

(** The nesting [json] has room for: the two levels of a registry, which
    an interpreter that runs the page has, and what the world gives
    beyond them. *)
Definition json_depth (w : World) (l : list event) : nat := 2 + json_room w l.

(** The exception [json.loads] raises when it gives up. *)
Definition decode_exn (e : decode_error) : exn :=
  match e with
  | Malformed => JSONDecodeError
  | TooDeep container =>
      RecursionError ("maximum recursion depth exceeded while decoding a JSON "
                      ++ container ++ " from a unicode string")
  | TooManyDigits digits =>
      ValueError ("Exceeds the limit (4300 digits) for integer string conversion: value has "
                  ++ str_of_Z (Z.of_nat digits)
                  ++ " digits; use sys.set_int_max_str_digits() to increase the limit")
  end.

(** The machine: the registry file (absent, or its text) and the log of
    effects, latest last. *)
Record Sys : Type := {
  mcp_servers_json : option string;
  log : list event
}.

Definition emit (ev : event) (s : Sys) : Sys :=
  {| mcp_servers_json := mcp_servers_json s; log := log s ++ [ev] |}.

Definition write_file (content : string) (s : Sys) : Sys :=
  {| mcp_servers_json := Some content; log := log s |}.

(** *** Computations that may raise *)

Inductive outcome (A : Type) : Type :=
| Return (a : A)
| Raise (e : exn).
Arguments Return {A} a.
Arguments Raise {A} e.

Definition ST (S A : Type) : Type := S -> outcome A * S.

Definition ret {S A : Type} (a : A) : ST S A := fun s => (Return a, s).

Definition raise {S A : Type} (e : exn) : ST S A := fun s => (Raise e, s).

Definition bind {S A B : Type} (m : ST S A) (k : A -> ST S B) : ST S B :=
  fun s =>
    match m s with
    | (Return a, s1) => k a s1
    | (Raise e, s1) => (Raise e, s1)
    end.

(** [try: body except <catches> as e: handler]. *)
Definition try_except {S A : Type} (body : ST S A) (catches : exn -> bool)
    (handler : exn -> ST S A) : ST S A :=
  fun s =>
    match body s with
    | (Return a, s1) => (Return a, s1)
    | (Raise e, s1) => if catches e then handler e s1 else (Raise e, s1)
    end.

Definition get_state {S : Type} : ST S S := fun s => (Return s, s).

Definition modify {S : Type} (f : S -> S) : ST S unit := fun s => (Return tt, f s).

Declare Scope st_scope.
Delimit Scope st_scope with st.
Notation "x <- m ;; k" := (bind m (fun x => k))
  (at level 61, m at next level, right associativity) : st_scope.
Notation "m ;;; k" := (bind m (fun _ => k))
  (at level 61, right associativity) : st_scope.
Open Scope st_scope.

(** [st.error(prefix + str(e))]. *)
Definition st_error (prefix : string) (e : exn) : ST Sys unit :=
  modify (emit (EvStError prefix e)).

(* ================================================================= *)
(** ** The registry store *)

Section Registry.

Variable w : World.

(** [open("mcp_servers.json", mode)]. *)
Definition open_file (mode : open_mode) : ST Sys unit :=
  fun s =>
    match open_error w (log s) mode with
    | Some e => (Raise e, s)
    | None => (Return tt, s)
    end.

(** [json.load(f)]. *)
Definition json_load : ST Sys json :=
  fun s =>
    match mcp_servers_json s with
    | None => (Raise (OSError "No such file or directory"), s)
    | Some content =>
        match loads (json_depth w (log s)) content with
        | Decoded v => (Return v, s)
        | Refused e => (Raise (decode_exn e), s)
        end
    end.

(** [os.path.exists("mcp_servers.json")]. *)
Definition path_exists : ST Sys bool :=
  fun s => (Return (match mcp_servers_json s with Some _ => true | None => false end), s).

Definition load_saved_servers : ST Sys json :=
  try_except
    (present <- path_exists ;;
     if present then
       open_file ReadMode ;;;
       json_load
     else ret (JObj []))
    is_Exception
    (fun e =>
       st_error "Error loading saved servers: " e ;;;
       ret (JObj [])).

Definition save_servers (servers : pydict (pydict string)) : ST Sys bool :=
  try_except
    (open_file WriteMode ;;;
     modify (write_file (dumps_servers servers)) ;;;
     ret true)
    is_Exception
    (fun e =>
       st_error "Error saving servers: " e ;;;
       ret false).

End Registry.

(* ================================================================= *)
(** ** [class MCPClient] *)

(** What [self.exit_stack] has entered, latest last. *)
Inductive entered_context : Type :=
| CtxStdio (params : StdioServerParameters) (t : Transport)
| CtxSession (s : ClientSession).

(** An instance.  [__init__] binds [server_url] on the HTTP branch only,
    [command] and [server_params] on the stdio branch only, and [stdio]
    and [write] are bound when a transport is first opened: for these the
    outer [None] is an attribute that is not bound.  The inner [option] of
    [server_url] and [command] is Python's [None]. *)
Record MCPClient : Type := {
  protocol : string;
  process : option unit;
  stop_event : option unit;
  session : option ClientSession;
  exit_stack : list entered_context;
  server_url : option (option string);
  command : option (option string);
  server_params : option StdioServerParameters;
  stdio : option nat;
  write : option nat
}.

Definition set_transport (t : Transport) (c : MCPClient) : MCPClient :=
  {| protocol := protocol c; process := process c; stop_event := stop_event c;
     session := session c; exit_stack := exit_stack c;
     server_url := server_url c; command := command c;
     server_params := server_params c;
     stdio := Some (read_stream t); write := Some (write_stream t) |}.

Definition set_session (cs : ClientSession) (c : MCPClient) : MCPClient :=
  {| protocol := protocol c; process := process c; stop_event := stop_event c;
     session := Some cs; exit_stack := exit_stack c;
     server_url := server_url c; command := command c;
     server_params := server_params c;
     stdio := stdio c; write := write c |}.

Definition push_context (x : entered_context) (c : MCPClient) : MCPClient :=
  {| protocol := protocol c; process := process c; stop_event := stop_event c;
     session := session c; exit_stack := exit_stack c ++ [x];
     server_url := server_url c; command := command c;
     server_params := server_params c;
     stdio := stdio c; write := write c |}.

(** The launch parameters [__init__] stores on the stdio branch. *)
Definition uv_server_params : StdioServerParameters :=
  {| sp_command := "uv"; sp_args := ["run"; "OneMCPServer.py"]; sp_env := None |}.

(** Python's truth value of an optional [str]. *)
Definition truthy (x : option string) : bool :=
  match x with
  | None | Some EmptyString => false
  | Some _ => true
  end.

Definition __init__ (server_url command program : option string) (protocol : string)
  : ST Sys MCPClient :=
  if String.eqb protocol "http" then
    ret {| protocol := protocol; process := None; stop_event := None;
           session := None; exit_stack := [];
           server_url :=
             Some (if truthy server_url
                   then option_map (fun u => rstrip u "/") server_url
                   else None);
           command := None; server_params := None;
           stdio := None; write := None |}
  else if String.eqb protocol "stdio" then
    ret {| protocol := protocol; process := None; stop_event := None;
           session := None; exit_stack := [];
           server_url := None;
           command := Some command; server_params := Some uv_server_params;
           stdio := None; write := None |}
  else raise (ValueError ("Unsupported protocol: " ++ protocol)).

(** What a method returns for its tools: the HTTP branch the value found
    in the body, the stdio branch the answer of the session, and [None]
    when [self.protocol] is neither. *)
Inductive tools_result : Type :=
| ToolsJson (v : json)
| ToolsResponse (r : ListToolsResult)
| ToolsNone.

(** [type(v).__name__] of a decoded value. *)
Definition type_name (v : json) : string :=
  match v with
  | JNull => "NoneType"
  | JBool _ => "bool"
  | JNum lit =>
      if mem_char "." lit || mem_char "e" lit || mem_char "E" lit
         || mem_char "N" lit || mem_char "I" lit
      then "float" else "int"
  | JString _ => "str"
  | JArr _ => "list"
  | JObject _ => "dict"
  end.

Section Client.

Variable w : World.

Definition Method (A : Type) : Type := ST (MCPClient * Sys) A.

Definition self : Method MCPClient := fun cs => (Return (fst cs), cs).

Definition update_self (f : MCPClient -> MCPClient) : Method unit :=
  fun cs => (Return tt, (f (fst cs), snd cs)).

Definition on_sys {A : Type} (m : ST Sys A) : Method A :=
  fun cs => let (r, s1) := m (snd cs) in (r, (fst cs, s1)).

(** Reading an attribute that may not be bound. *)
Definition read_attr {A : Type} (name : string) (field : option A) : Method A :=
  match field with
  | Some v => ret v
  | None => raise (AttributeError "MCPClient" name)
  end.

(** [f"{x}"] for an optional [str]. *)
Definition format_str (x : option string) : string :=
  match x with
  | Some s => s
  | None => "None"
  end.

(** [requests.get(target)]. *)
Definition requests_get_call (target : string) : Method Response :=
  on_sys (fun s =>
    match requests_get w (log s) target with
    | inl k => (Raise (RequestError k), emit (EvHttpGet target) s)
    | inr r => (Return r, emit (EvHttpGet target) s)
    end).

(** [response.raise_for_status()]: an error for the statuses from 400 to
    599. *)
Definition raise_for_status (r : Response) : Method unit :=
  if ((400 <=? status_code r) && (status_code r <? 500))%Z then
    raise (HTTPError (status_code r)
             (str_of_Z (status_code r) ++ " Client Error: " ++ reason r
              ++ " for url: " ++ url r))
  else if ((500 <=? status_code r) && (status_code r <? 600))%Z then
    raise (HTTPError (status_code r)
             (str_of_Z (status_code r) ++ " Server Error: " ++ reason r
              ++ " for url: " ++ url r))
  else ret tt.

(** [response.json()]. *)
Definition response_json (r : Response) : Method json :=
  fun cs =>
    match loads (json_depth w (log (snd cs))) (text r) with
    | Decoded v => (Return v, cs)
    | Refused Malformed => (Raise RequestsJSONDecodeError, cs)
    | Refused e => (Raise (decode_exn e), cs)
    end.

(** [v.get(key, default)]: only a [dict] has it. *)
Definition json_get (v : json) (key : string) (default : json) : Method json :=
  match v with
  | JObject d =>
      match obj_get d (codes key) with
      | Some x => ret x
      | None => ret default
      end
  | _ => raise (AttributeError (type_name v) "get")
  end.

Definition get_server_info : Method (option json) :=
  c <- self ;;
  if String.eqb (protocol c) "http" then
    try_except
      (base <- read_attr "server_url" (server_url c) ;;
       response <- requests_get_call (format_str base ++ "/server_info") ;;
       raise_for_status response ;;;
       v <- response_json response ;;
       ret (Some v))
      is_RequestException
      (fun e =>
         on_sys (st_error "Error getting server info: " e) ;;;
         ret (Some (JObj [])))
  else if String.eqb (protocol c) "stdio" then
    ret (Some (JObj [("action", JStr "server_info")]))
  else ret None.

(** [await self.exit_stack.enter_async_context(stdio_client(params))]. *)
Definition enter_stdio_client (params : StdioServerParameters) : Method Transport :=
  fun cs =>
    let s1 := emit (EvSpawn params) (snd cs) in
    match stdio_client w (log (snd cs)) params with
    | inl e => (Raise e, (fst cs, s1))
    | inr t => (Return t, (push_context (CtxStdio params t) (fst cs), s1))
    end.

(** [await self.exit_stack.enter_async_context(ClientSession(r, w))]. *)
Definition enter_client_session (t : Transport) : Method ClientSession :=
  fun cs =>
    let sess := {| session_read := read_stream t; session_write := write_stream t |} in
    (Return sess, (push_context (CtxSession sess) (fst cs), emit (EvSessionOpen t) (snd cs))).

(** [await session.initialize()]. *)
Definition initialize (sess : ClientSession) : Method unit :=
  on_sys (fun s =>
    match session_initialize w (log s) sess with
    | Some e => (Raise e, emit (EvInitialize sess) s)
    | None => (Return tt, emit (EvInitialize sess) s)
    end).

(** [await session.list_tools()]. *)
Definition session_list_tools_call (sess : ClientSession) : Method ListToolsResult :=
  on_sys (fun s =>
    match session_list_tools w (log s) sess with
    | inl e => (Raise e, emit (EvListTools sess) s)
    | inr r => (Return r, emit (EvListTools sess) s)
    end).

(** The transport and the session both methods open, in the same way. *)
Definition open_session : Method ClientSession :=
  c <- self ;;
  params <- read_attr "server_params" (server_params c) ;;
  stdio_transport <- enter_stdio_client params ;;
  update_self (set_transport stdio_transport) ;;;
  sess <- enter_client_session stdio_transport ;;
  update_self (set_session sess) ;;;
  initialize sess ;;;
  ret sess.

Definition server_script_message : string := "Server script must be a .py or .js file".

Definition connect_to_server (server_script_path : string) : Method (option json) :=
  let is_python := endswith server_script_path ".py" in
  let is_js := endswith server_script_path ".js" in
  if negb (is_python || is_js) then
    raise (ValueError server_script_message)
  else
    (* bound and never used: the launch parameters are those of [__init__] *)
    let command := if is_python then "python" else "node" in
    sess <- open_session ;;
    response <- session_list_tools_call sess ;;
    on_sys (modify (emit (EvPrint (newline ++ "Connected to server with tools:")
                            (map tool_name (tools response))))) ;;;
    get_server_info.

(** The body of the coroutine [list_tools], run to its end. *)
Definition list_tools : Method tools_result :=
  c <- self ;;
  if String.eqb (protocol c) "http" then
    try_except
      (base <- read_attr "server_url" (server_url c) ;;
       response <- requests_get_call (format_str base ++ "/list_tools") ;;
       raise_for_status response ;;;
       v <- response_json response ;;
       found <- json_get v "tools" (JArr []) ;;
       ret (ToolsJson found))
      is_RequestException
      (fun e =>
         on_sys (st_error "Error listing tools: " e) ;;;
         ret (ToolsJson (JArr [])))
  else if String.eqb (protocol c) "stdio" then
    sess <- open_session ;;
    found <- session_list_tools_call sess ;;
    ret (ToolsResponse found)
  else ret ToolsNone.

End Client.

(* ================================================================= *)
(** ** Attribute lookup and the calls of [cleanup] *)

(** The functions the body of [class MCPClient] defines. *)
Inductive method : Type :=
| M__init__
| M_connect_to_server
| M_get_server_info
| M_list_tools.

(** The namespace of the class: every [def] of its body, by name. *)
Definition MCPClient_namespace : pydict method :=
  [("__init__", M__init__);
   ("connect_to_server", M_connect_to_server);
   ("get_server_info", M_get_server_info);
   ("list_tools", M_list_tools)].

Definition bound {A : Type} (name : string) (field : option A) : list string :=
  match field with
  | Some _ => [name]
  | None => []
  end.

(** The names bound on an instance: the keys of its [__dict__]. *)
Definition instance_attributes (c : MCPClient) : list string :=
  ["protocol"; "process"; "stop_event"; "session"; "exit_stack"]
  ++ bound "server_url" (server_url c)
  ++ bound "command" (command c)
  ++ bound "server_params" (server_params c)
  ++ bound "stdio" (stdio c)
  ++ bound "write" (write c).

Inductive attribute : Type :=
| InstanceValue
| Function (m : method).

(** [getattr(client, name)] for the names of the program: the instance
    first, then the class.  (The special names every object inherits,
    all of the form [__x__], are not part of the table.) *)
Definition getattr (c : MCPClient) (name : string) : outcome attribute :=
  if existsb (String.eqb name) (instance_attributes c) then Return InstanceValue
  else match dict_get MCPClient_namespace name with
       | Some m => Return (Function m)
       | None => Raise (AttributeError "MCPClient" name)
       end.

Definition or_else {A : Type} (x y : option A) : option A :=
  match x with
  | Some _ => x
  | None => y
  end.

(** What [__init__] run again on [old] leaves: the attributes it binds,
    and those of [old] it does not touch. *)
Definition rebind (fresh old : MCPClient) : MCPClient :=
  {| protocol := protocol fresh; process := process fresh;
     stop_event := stop_event fresh; session := session fresh;
     exit_stack := exit_stack fresh;
     server_url := or_else (server_url fresh) (server_url old);
     command := or_else (command fresh) (command old);
     server_params := or_else (server_params fresh) (server_params old);
     stdio := or_else (stdio fresh) (stdio old);
     write := or_else (write fresh) (write old) |}.

Section Calls.

Variable w : World.

(** Calling an attribute without arguments.  No instance value is
    callable; [list_tools()] only creates the coroutine. *)
Definition call0 (a : attribute) : Method unit :=
  match a with
  | InstanceValue => raise (TypeError "object is not callable")
  | Function M__init__ =>
      fun cs =>
        match __init__ None None None "http" (snd cs) with
        | (Return fresh, s1) => (Return tt, (rebind fresh (fst cs), s1))
        | (Raise e, s1) => (Raise e, (fst cs, s1))
        end
  | Function M_connect_to_server =>
      raise (TypeError "connect_to_server() missing 1 required positional argument: 'server_script_path'")
  | Function M_get_server_info => get_server_info w ;;; ret tt
  | Function M_list_tools => ret tt
  end.

(** [client.name()]. *)
Definition call_method (name : string) : Method unit :=
  fun cs =>
    match getattr (fst cs) name with
    | Return a => call0 a cs
    | Raise e => (Raise e, cs)
    end.

(** [on_exit]: [client] is the entry of [st.session_state], absent, [None]
    or an instance. *)
Definition on_exit (client : option (option MCPClient)) : ST Sys unit :=
  match client with
  | Some (Some c) => fun s => let (r, cs) := call_method "cleanup" (c, s) in (r, snd cs)
  | _ => ret tt
  end.

End Calls.

(* ================================================================= *)
(** ** Observations on logs and texts *)

(** The launch parameters of the subprocesses spawned, in order. *)
Fixpoint spawned (l : list event) : list StdioServerParameters :=
  match l with
  | [] => []
  | EvSpawn p :: r => p :: spawned r
  | _ :: r => spawned r
  end.

(** The errors shown to the user, in order. *)
Fixpoint reported (l : list event) : list (string * exn) :=
  match l with
  | [] => []
  | EvStError prefix e :: r => (prefix, e) :: reported r
  | _ :: r => reported r
  end.

(** The targets of the HTTP requests sent, in order. *)
Fixpoint requested (l : list event) : list string :=
  match l with
  | [] => []
  | EvHttpGet t :: r => t :: requested r
  | _ :: r => requested r
  end.

(** [c * n]. *)
Fixpoint replicate (n : nat) (c : ascii) : string :=
  match n with
  | O => ""
  | S k => String c (replicate k c)
  end.

(** A [dict] holds each of its keys once. *)
Definition dict_wf {V : Type} (d : pydict V) : Prop := NoDup (dict_keys d).

(** A registry: a [dict] of [dict]s. *)
Definition registry_wf (m : pydict (pydict string)) : Prop :=
  dict_wf m /\ Forall (fun kv => dict_wf (snd kv)) m.

(** The text of [dumps_dict] from behind the opening quote of its first
    key to its closing brace. *)
Fixpoint members_text {V : Type} (dump : V -> string) (indent outdent : string)
    (kv : string * V) (rest : pydict V) : string :=
  escape (fst kv) ++ String dquote (": " ++ dump (snd kv)
  ++ match rest with
     | [] => newline ++ outdent ++ "}"
     | kv' :: rest' =>
         "," ++ newline ++ indent
         ++ String dquote (members_text dump indent outdent kv' rest')
     end).

(** Only spaces. *)
Fixpoint blank (s : string) : bool :=
  match s with
  | EmptyString => true
  | String c r => Ascii.eqb c " " && blank r
  end.


(** Whether a computation ended in an exception. *)
Definition raises {A : Type} (r : outcome A) : bool :=
  match r with
  | Raise _ => true
  | Return _ => false
  end.

(* ================================================================= *)
(** ** Scenarios *)

(** Nothing on disk, nothing done yet. *)
Definition start : Sys := {| mcp_servers_json := None; log := [] |}.

Definition tool_echo : Tool := {| tool_name := "echo"; tool_payload := JObj [] |}.

(** A world where a server answers over stdio, where no HTTP server is
    reachable and where the registry file can be opened. *)
Definition stdio_world : World :=
  {| requests_get := fun _ _ => inl ConnectionError;
     stdio_client := fun l _ =>
       inr {| read_stream := List.length l; write_stream := S (List.length l) |};
     session_initialize := fun _ _ => None;
     session_list_tools := fun _ _ => inr {| tools := [tool_echo] |};
     open_error := fun _ _ => None;
     json_room := fun _ => 100 |}.

(** A world whose HTTP server answers every request with [status] and
    [body]. *)
Definition http_world (status : Z) (body : string) : World :=
  {| requests_get := fun _ target =>
       inr {| status_code := status; reason := "OK"; url := target; text := body |};
     stdio_client := fun _ _ => inl (OSError "No such file or directory");
     session_initialize := fun _ _ => None;
     session_list_tools := fun _ _ => inr {| tools := [] |};
     open_error := fun _ _ => None;
     json_room := fun _ => 100 |}.

(** [MCPClient(server_url=u, protocol="http")], as [__init__] leaves it. *)
Definition http_client (u : option string) : MCPClient :=
  {| protocol := "http"; process := None; stop_event := None;
     session := None; exit_stack := [];
     server_url := Some u;
     command := None; server_params := None;
     stdio := None; write := None |}.

(** [MCPClient(command=cmd, program=prog, protocol="stdio")], as
    [__init__] leaves it. *)
Definition stdio_client_object (cmd : option string) : MCPClient :=
  {| protocol := "stdio"; process := None; stop_event := None;
     session := None; exit_stack := [];
     server_url := None;
     command := Some cmd; server_params := Some uv_server_params;
     stdio := None; write := None |}.

(** The registry of the round-trip scenario. *)
Definition local_descriptor : pydict string :=
  [("protocol", "stdio"); ("command", "run"); ("program", "/abs/path/server")].

Definition local_registry : pydict (pydict string) :=
  dict_set [] "local" local_descriptor.

(* ================================================================= *)
(** ** The page: the blocks of [main]

    [main] is one function; its blocks are embedded one by one: the
    form that adds a server, the list of saved servers with its Delete
    buttons, the filters behind the two drop-downs and the block of the
    button "Connect to HTTP Server".  [st.session_state] is [Session];
    its registry has the type the source gives it,
    [Dict[str, Dict[str, str]]]. *)

(** What the page itself shows, in order. *)
Inductive ui_event : Type :=
| UiWarning (msg : string)
| UiSuccess (msg : string)
| UiError (msg : string)
| UiInfo (msg : string)
| UiSubheader (msg : string)
| UiSpinner (msg : string)
| UiText (msg : string)
| UiJson (v : option json).

Record Session : Type := {
  saved_servers : pydict (pydict string);
  client : option MCPClient;
  shown : list ui_event
}.

(** How a block ends: the script goes on, or [st.rerun()] restarts it. *)
Inductive page_result : Type := Rendered | Rerun.

Definition Page (A : Type) : Type := ST (Session * Sys) A.

Definition display (ev : ui_event) : Page unit :=
  fun ps =>
    (Return tt,
     ({| saved_servers := saved_servers (fst ps); client := client (fst ps);
         shown := shown (fst ps) ++ [ev] |}, snd ps)).

Definition set_saved_servers (m : pydict (pydict string)) : Page unit :=
  fun ps =>
    (Return tt,
     ({| saved_servers := m; client := client (fst ps); shown := shown (fst ps) |},
      snd ps)).

Definition set_client (c : option MCPClient) : Page unit :=
  fun ps =>
    (Return tt,
     ({| saved_servers := saved_servers (fst ps); client := c;
         shown := shown (fst ps) |}, snd ps)).

Definition session_state : Page Session := fun ps => (Return (fst ps), ps).

Definition in_sys {A : Type} (m : ST Sys A) : Page A :=
  fun ps => let (r, s1) := m (snd ps) in (r, (fst ps, s1)).

(** A method run on [st.session_state.client]; [attr] is the attribute
    asked of it. *)
Definition on_client {A : Type} (attr : string) (m : ST (MCPClient * Sys) A) : Page A :=
  fun ps =>
    match client (fst ps) with
    | Some c =>
        let (r, cs) := m (c, snd ps) in
        (r, ({| saved_servers := saved_servers (fst ps); client := Some (fst cs);
                shown := shown (fst ps) |}, snd cs))
    | None => (Raise (AttributeError "NoneType" attr), ps)
    end.

(** [s.lower()], for code points below 256. *)
Definition lower_char (c : ascii) : ascii :=
  let n := N_of_ascii c in
  if ((65 <=? n) && (n <=? 90) || (192 <=? n) && (n <=? 222) && negb (n =? 215))%N
  then ascii_of_N (n + 32) else c.

Fixpoint lower (s : string) : string :=
  match s with
  | EmptyString => EmptyString
  | String c r => String (lower_char c) (lower r)
  end.

(** [d.get(key, default)] on a [Dict[str, str]]. *)
Definition get_default (d : pydict string) (key default : string) : string :=
  match dict_get d key with
  | Some v => v
  | None => default
  end.

(** [details.get("protocol") == proto]. *)
Definition has_protocol (proto : string) (details : pydict string) : bool :=
  match dict_get details "protocol" with
  | Some p => String.eqb p proto
  | None => false
  end.

(** [{name: details for name, details in servers.items()
      if details.get("protocol") == proto}]. *)
Definition servers_with_protocol (proto : string) (servers : pydict (pydict string))
  : pydict (pydict string) :=
  filter (fun kv => has_protocol proto (snd kv)) servers.

Definition http_servers (servers : pydict (pydict string)) : pydict (pydict string) :=
  servers_with_protocol "http" servers.

Definition stdio_servers (servers : pydict (pydict string)) : pydict (pydict string) :=
  servers_with_protocol "stdio" servers.

(** [[""] + list(servers.keys()) + ["Custom"]]. *)
Definition server_options (servers : pydict (pydict string)) : list string :=
  ([""] ++ dict_keys servers ++ ["Custom"])%list.

(** What the form "Add New Server" holds when it is submitted: the
    radio is on HTTP and the form has a name and a URL, or it is on
    stdio and the form has a name, a command and a program. *)
Inductive add_server_form : Type :=
| FormHTTP (new_server_name new_server_url : string)
| FormStdio (new_server_name new_server_command new_server_program : string).

Definition form_name (f : add_server_form) : string :=
  match f with
  | FormHTTP name _ => name
  | FormStdio name _ _ => name
  end.

(** The [server_data] the form builds. *)
Definition server_data (f : add_server_form) : pydict string :=
  match f with
  | FormHTTP _ url =>
      dict_set (dict_set [] "protocol" (lower "HTTP")) "url" url
  | FormStdio _ cmd prog =>
      dict_set (dict_set (dict_set [] "protocol" (lower "stdio")) "command" cmd)
        "program" prog
  end.

Section PageBlocks.

Variable w : World.

(** The [else] branch of the form: the entry is stored, then saved. *)
Definition store_server (f : add_server_form) : Page page_result :=
  st <- session_state ;;
  set_saved_servers (dict_set (saved_servers st) (form_name f) (server_data f)) ;;;
  st1 <- session_state ;;
  saved <- in_sys (save_servers w (saved_servers st1)) ;;
  if saved then
    display (UiSuccess ("Server '" ++ form_name f ++ "' added successfully")) ;;;
    ret Rerun
  else
    display (UiError "Failed to save the server") ;;;
    ret Rendered.

(** The body of [if submitted:]. *)
Definition add_server (f : add_server_form) : Page page_result :=
  if String.eqb (form_name f) "" then
    display (UiWarning "Please provide a name for the server") ;;; ret Rendered
  else
    match f with
    | FormHTTP _ url =>
        if String.eqb url "" then
          display (UiWarning "Please provide a URL for the HTTP server") ;;; ret Rendered
        else store_server f
    | FormStdio _ cmd prog =>
        if String.eqb cmd "" then
          display (UiWarning "Please provide a command for the stdio server") ;;;
          ret Rendered
        else if String.eqb prog "" then
          display (UiWarning
            "Please provide a server program with absolute path for the stdio server") ;;;
          ret Rendered
        else store_server f
    end.

(** The four texts of a row. *)
Definition row_texts (name : string) (details : pydict string) : list ui_event :=
  [UiText name;
   UiText (get_default details "protocol" "http");
   UiText (if has_protocol "http" details then get_default details "url" ""
           else get_default details "command" "");
   UiText (if has_protocol "http" details then get_default details "url" ""
           else get_default details "program" "")].

Fixpoint display_all (evs : list ui_event) : Page unit :=
  match evs with
  | [] => ret tt
  | ev :: rest => display ev ;;; display_all rest
  end.

(** The loop over [saved_servers.items()], from row [i] on.  [pressed]
    is the index of the Delete button that was pressed, if any; [name]
    was read from the dictionary, so [del] finds it. *)
Fixpoint server_rows (pressed : option nat) (i : nat)
    (items : list (string * pydict string)) : Page page_result :=
  match items with
  | [] => ret Rendered
  | (name, details) :: rest =>
      display_all (row_texts name details) ;;;
      if match pressed with Some j => Nat.eqb j i | None => false end then
        st <- session_state ;;
        set_saved_servers (dict_del (saved_servers st) name) ;;;
        st1 <- session_state ;;
        in_sys (save_servers w (saved_servers st1)) ;;;
        ret Rerun
      else server_rows pressed (S i) rest
  end.

(** The list of the tab "Manage Servers". *)
Definition list_saved_servers (pressed : option nat) : Page page_result :=
  st <- session_state ;;
  match saved_servers st with
  | [] => display (UiInfo "No servers saved yet") ;;; ret Rendered
  | _ => server_rows pressed 0 (saved_servers st)
  end.

(** Python's truth value of what [get_server_info] returned.  Whether a
    number is zero is left to [number_is_zero]. *)
Definition json_truthy (number_is_zero : string -> bool) (v : option json) : bool :=
  match v with
  | None | Some JNull => false
  | Some (JBool b) => b
  | Some (JNum lit) => negb (number_is_zero lit)
  | Some (JString []) | Some (JArr []) | Some (JObject []) => false
  | Some (JString _) | Some (JArr _) | Some (JObject _) => true
  end.

Variable number_is_zero : string -> bool.

(** The body of [if st.button("Connect to HTTP Server"):].
    [client.list_tools()] is not awaited: it only makes a coroutine
    object, which is true and which [enumerate] refuses. *)
Definition connect_http (server_url : string) : Page unit :=
  if String.eqb server_url "" then
    display (UiWarning "Please enter a valid server URL")
  else
    st <- session_state ;;
    match client st with
    | Some _ => on_client "cleanup" (call_method w "cleanup")
    | None => ret tt
    end ;;;
    c <- in_sys (__init__ (Some server_url) None None "http") ;;
    set_client (Some c) ;;;
    display (UiSpinner "Connecting to server...") ;;;
    server_info <- on_client "get_server_info" (get_server_info w) ;;
    if json_truthy number_is_zero server_info then
      display (UiSuccess ("Successfully connected to MCP server at " ++ server_url)) ;;;
      display (UiSubheader "Server Information") ;;;
      display (UiJson server_info) ;;;
      display (UiSpinner "Fetching available tools...") ;;;
      display (UiSubheader "Available Tools") ;;;
      raise (TypeError "'coroutine' object is not iterable")
    else
      display (UiError ("Failed to connect to MCP server at " ++ server_url)).

End PageBlocks.

(** *** Observations on the page *)

(** The form is complete: a name, and a URL or a command and a
    program. *)
Definition form_complete (f : add_server_form) : bool :=
  match f with
  | FormHTTP name url => negb (String.eqb name "") && negb (String.eqb url "")
  | FormStdio name cmd prog =>
      negb (String.eqb name "") && negb (String.eqb cmd "") && negb (String.eqb prog "")
  end.

(** A descriptor as the form writes it: [protocol] is ["http"] with a
    non-empty [url], or ["stdio"] with a non-empty [command] and
    [program], and nothing else. *)
Definition descriptor_ok (d : pydict string) : bool :=
  match d with
  | [(k1, p); (k2, u)] =>
      String.eqb k1 "protocol" && String.eqb p "http"
      && String.eqb k2 "url" && negb (String.eqb u "")
  | [(k1, p); (k2, c); (k3, g)] =>
      String.eqb k1 "protocol" && String.eqb p "stdio"
      && String.eqb k2 "command" && negb (String.eqb c "")
      && String.eqb k3 "program" && negb (String.eqb g "")
  | _ => false
  end.

Definition registry_ok (m : pydict (pydict string)) : bool :=
  forallb (fun kv => descriptor_ok (snd kv)) m.

(** Every character of [s] passes [p]. *)
Fixpoint string_forall (p : ascii -> bool) (s : string) : bool :=
  match s with
  | EmptyString => true
  | String c r => p c && string_forall p r
  end.

(** A printable ASCII character, or a line feed. *)
Definition plain_char (c : ascii) : bool :=
  let n := N_of_ascii c in ((32 <=? n) && (n <=? 126) || (n =? 10))%N.

(** [l] without its element of index [i]. *)
Definition remove_nth {A : Type} (i : nat) (l : list A) : list A :=
  (firstn i l ++ skipn (S i) l)%list.

(** A session with nothing shown and no client. *)
Definition fresh_session (m : pydict (pydict string)) : Session :=
  {| saved_servers := m; client := None; shown := [] |}.

(** What a method leaves of a client and of the machine: the exit stack
    and the log are only added to, the registry file and the attributes
    [__init__] bound are as they were. *)
Definition only_grows (before after : MCPClient * Sys) : Prop :=
  (exists more, exit_stack (fst after) = (exit_stack (fst before) ++ more)%list)
  /\ (exists evs, log (snd after) = (log (snd before) ++ evs)%list)
  /\ mcp_servers_json (snd after) = mcp_servers_json (snd before)
  /\ protocol (fst after) = protocol (fst before)
  /\ server_url (fst after) = server_url (fst before)
  /\ command (fst after) = command (fst before)
  /\ server_params (fst after) = server_params (fst before).

(** A world where the registry file can be read and not written, and
    where nothing answers. *)
Definition readonly_world : World :=
  {| requests_get := fun _ _ => inl ConnectionError;
     stdio_client := fun _ _ => inl (OSError "No such file or directory");
     session_initialize := fun _ _ => None;
     session_list_tools := fun _ _ => inr {| tools := [] |};
     open_error := fun _ mode =>
       match mode with
       | WriteMode => Some (OSError "Permission denied")
       | ReadMode => None
       end;
     json_room := fun _ => 100 |}.

(** A world whose subprocess starts and then refuses [initialize]. *)
Definition mute_world : World :=
  {| requests_get := fun _ _ => inl ConnectionError;
     stdio_client := fun _ _ => inr {| read_stream := 3; write_stream := 4 |};
     session_initialize := fun _ _ => Some (McpError "Connection closed");
     session_list_tools := fun _ _ => inr {| tools := [] |};
     open_error := fun _ _ => None;
     json_room := fun _ => 100 |}.

(** The registry of an HTTP entry. *)
Definition remote_registry : pydict (pydict string) :=
  dict_set [] "remote" [("protocol", "http"); ("url", "http://localhost:8000")].

(* ================================================================= *)
(** * Properties *)

(** ** Logs *)

Lemma spawned_app (l1 l2 : list event) :
  spawned (l1 ++ l2) = (spawned l1 ++ spawned l2)%list.
Proof.
  induction l1 as [|ev l1 IH]; simpl; [reflexivity|].
  destruct ev; simpl; rewrite IH; reflexivity.
Qed.

Lemma requested_app (l1 l2 : list event) :
  requested (l1 ++ l2) = (requested l1 ++ requested l2)%list.
Proof.
  induction l1 as [|ev l1 IH]; simpl; [reflexivity|].
  destruct ev; simpl; rewrite IH; reflexivity.
Qed.

Lemma reported_app (l1 l2 : list event) :
  reported (l1 ++ l2) = (reported l1 ++ reported l2)%list.
Proof.
  induction l1 as [|ev l1 IH]; simpl; [reflexivity|].
  destruct ev; simpl; rewrite IH; reflexivity.
Qed.

(** ** Strings *)

Lemma endswith_refl (s : string) : endswith s s = true.
Proof. destruct s; simpl; rewrite ?Ascii.eqb_refl, ?String.eqb_refl; reflexivity. Qed.

Lemma endswith_app (a b : string) : endswith (a ++ b) b = true.
Proof.
  induction a as [|c a IH]; simpl.
  - apply endswith_refl.
  - rewrite IH.
    match goal with |- (if ?x then _ else _) = _ => destruct x; reflexivity end.
Qed.

Lemma rstrip_slash_clean (s : string) : endswith (rstrip s "/") "/" = false.
Proof.
  induction s as [|c r IH]; simpl; [reflexivity|].
  destruct (rstrip r "/") as [|d r'] eqn:E.
  - destruct (Ascii.eqb c "/") eqn:Ec; simpl; [reflexivity|].
    rewrite Ec. reflexivity.
  - simpl. simpl in IH.
    destruct (Ascii.eqb c "/"); simpl; exact IH.
Qed.

Lemma rstrip_slash_tail (s : string) :
  exists k, s = rstrip s "/" ++ replicate k "/".
Proof.
  induction s as [|c r [k IH]]; simpl.
  - exists 0. reflexivity.
  - destruct (rstrip r "/") as [|d r'] eqn:E.
    + destruct (Ascii.eqb c "/") eqn:Ec; simpl.
      * apply Ascii.eqb_eq in Ec. subst c. exists (S k). simpl. rewrite IH at 1. reflexivity.
      * exists k. simpl. rewrite IH at 1. reflexivity.
    + exists k. simpl. rewrite IH at 1. reflexivity.
Qed.

(** ** Running the methods *)

Ltac run :=
  unfold get_server_info, list_tools, connect_to_server, open_session,
    requests_get_call, raise_for_status, response_json, json_get,
    enter_stdio_client, enter_client_session, initialize,
    session_list_tools_call, read_attr, on_sys, update_self, self,
    st_error, try_except, modify, bind, ret, raise; simpl.

(** Case analysis on the next answer of the outside world. *)
Ltac ask :=
  match goal with
  | |- context [stdio_client ?w ?l ?p] => destruct (stdio_client w l p) eqn:?
  | |- context [session_initialize ?w ?l ?x] => destruct (session_initialize w l x) eqn:?
  | |- context [session_list_tools ?w ?l ?x] => destruct (session_list_tools w l x) eqn:?
  | |- context [requests_get ?w ?l ?x] => destruct (requests_get w l x) eqn:?
  | |- context [open_error ?w ?l ?x] => destruct (open_error w l x) eqn:?
  end; simpl.

(** What opening a session does, whatever the state of [c]: the
    subprocess is launched first; when that fails nothing else happens. *)
Lemma open_session_launches (w : World) (c : MCPClient) (s : Sys) (p : StdioServerParameters) :
  server_params c = Some p ->
  exists tail,
    log (snd (snd (open_session w (c, s)))) = (log s ++ EvSpawn p :: tail)%list
    /\ spawned tail = [].
Proof.
  intros Hp. run. rewrite Hp. simpl.
  ask.
  - exists []. split; reflexivity.
  - ask; eexists; rewrite <- !app_assoc; simpl; split; reflexivity.
Qed.

Lemma get_server_info_stdio (w : World) (c : MCPClient) (s : Sys) :
  protocol c = "stdio" ->
  get_server_info w (c, s) = (Return (Some (JObj [("action", JStr "server_info")])), (c, s)).
Proof.
  intros H. unfold get_server_info, bind, self. simpl. rewrite H. reflexivity.
Qed.

(** ** C1: [cleanup] *)

(** C1 (code bug).  The claim: [cleanup()] succeeds on every client,
    any number of times.  The code: [class MCPClient] defines no
    [cleanup], and no instance binds one, so the call
    [client.cleanup()] made by [main] and [on_exit] raises
    [AttributeError] on every client and in every state, and leaves the
    client and the machine as they were. *)
Theorem cleanup_raises_AttributeError (w : World) (c : MCPClient) (s : Sys) :
  getattr c "cleanup" = Raise (AttributeError "MCPClient" "cleanup")
  /\ call_method w "cleanup" (c, s)
     = (Raise (AttributeError "MCPClient" "cleanup"), (c, s))
  /\ on_exit w (Some (Some c)) s
     = (Raise (AttributeError "MCPClient" "cleanup"), s).
Proof.
  assert (H : getattr c "cleanup" = Raise (AttributeError "MCPClient" "cleanup")).
  { unfold getattr, instance_attributes, bound.
    destruct (server_url c), (command c), (server_params c), (stdio c), (write c);
      reflexivity. }
  split; [exact H|].
  unfold on_exit, call_method. simpl. rewrite H. split; reflexivity.
Qed.

(** ** C2: construction *)

(** C2, as stated, fails: with [protocol="http"] and no [server_url],
    and with [protocol="stdio"] and neither [command] nor [program],
    [__init__] returns a client. *)
Lemma init_without_parameters_returns :
  __init__ None None None "http" start = (Return (http_client None), start)
  /\ __init__ None None None "stdio" start = (Return (stdio_client_object None), start).
Proof. split; reflexivity. Qed.

(** C2 (amended).  Construction never touches the outside world, and it
    raises exactly when [protocol] is neither ["http"] nor ["stdio"],
    with [ValueError("Unsupported protocol: ...")]; a missing
    [server_url], [command] or [program] is accepted: the HTTP client
    then holds [None] as its endpoint, the stdio client [None] as its
    command. *)
Theorem init_raises_only_on_protocol (url cmd prog : option string) (proto : string) (s : Sys) :
  snd (__init__ url cmd prog proto s) = s
  /\ raises (fst (__init__ url cmd prog proto s))
     = negb (String.eqb proto "http" || String.eqb proto "stdio")
  /\ match fst (__init__ url cmd prog proto s) with
     | Raise e => e = ValueError ("Unsupported protocol: " ++ proto)
     | Return c => protocol c = proto /\ session c = None /\ exit_stack c = []
     end
  /\ __init__ None cmd prog "http" s = (Return (http_client None), s)
  /\ __init__ url None prog "stdio" s = (Return (stdio_client_object None), s).
Proof.
  unfold __init__, ret, raise.
  destruct (String.eqb proto "http") eqn:E1; simpl.
  - repeat split; reflexivity.
  - destruct (String.eqb proto "stdio") eqn:E2; simpl; repeat split; reflexivity.
Qed.

(** ** C3: launch parameters *)

(** C3 (code bug).  The claim: the subprocess is spawned with the
    [command] and [program] given to the constructor.  The code:
    [__init__] stores the fixed parameters [uv run OneMCPServer.py],
    keeps [command] without using it and drops [program]; whatever the
    two are, [list_tools] and [connect_to_server] spawn exactly
    [uv_server_params]. *)
Theorem stdio_launch_ignores_command_and_program
    (w : World) (url cmd prog : option string) (path : string) (s : Sys) :
  __init__ url cmd prog "stdio" s = (Return (stdio_client_object cmd), s)
  /\ server_params (stdio_client_object cmd) = Some uv_server_params
  /\ spawned (log (snd (snd (list_tools w (stdio_client_object cmd, s)))))
     = (spawned (log s) ++ [uv_server_params])%list
  /\ spawned (log (snd (snd (connect_to_server w (path ++ ".py")
                               (stdio_client_object cmd, s)))))
     = (spawned (log s) ++ [uv_server_params])%list.
Proof.
  split; [reflexivity|]. split; [reflexivity|].
  destruct (open_session_launches w (stdio_client_object cmd) s uv_server_params eq_refl)
    as [tail [Hlog Htail]].
  split.
  - unfold list_tools, bind at 1, self. simpl.
    unfold bind at 1.
    destruct (open_session w (stdio_client_object cmd, s)) as [[sess|e] [c1 s1]] eqn:E;
      simpl in *.
    + unfold bind, session_list_tools_call, on_sys, ret. simpl.
      destruct (session_list_tools w (log s1) sess); simpl;
        rewrite Hlog, <- app_assoc, !spawned_app; simpl; rewrite Htail; reflexivity.
    + rewrite Hlog, spawned_app. simpl. rewrite Htail. reflexivity.
  - unfold connect_to_server. rewrite endswith_app. simpl.
    unfold bind at 1.
    destruct (open_session w (stdio_client_object cmd, s)) as [[sess|e] [c1 s1]] eqn:E;
      simpl in *.
    + assert (Hproto : protocol c1 = "stdio").
      { revert E. run. ask; [discriminate|].
        ask; intros E; inversion E; reflexivity. }
      unfold bind at 1, session_list_tools_call, on_sys. simpl.
      ask.
      * rewrite Hlog, <- app_assoc, !spawned_app. simpl. rewrite Htail. reflexivity.
      * unfold bind at 1, modify. simpl.
        rewrite get_server_info_stdio by exact Hproto. simpl.
        rewrite Hlog, <- !app_assoc, !spawned_app. simpl. rewrite Htail. reflexivity.
    + rewrite Hlog, spawned_app. simpl. rewrite Htail. reflexivity.
Qed.

(** ** C10: the check of the script path *)

(** C10.  A path that ends neither in [.py] nor in [.js] makes
    [connect_to_server] raise [ValueError("Server script must be a .py
    or .js file")] with the client (its exit stack included) and the log
    untouched: nothing was opened, entered or spawned.  A path that ends
    in [.py] or [.js] passes the check: the method goes on to read
    [self.server_params] and, when it is bound, to launch the
    subprocess. *)
Theorem connect_to_server_checks_the_extension
    (w : World) (path : string) (c : MCPClient) (s : Sys) :
  if endswith path ".py" || endswith path ".js"
  then match server_params c with
       | Some p =>
           exists tail,
             log (snd (snd (connect_to_server w path (c, s))))
             = (log s ++ EvSpawn p :: tail)%list
       | None =>
           connect_to_server w path (c, s)
           = (Raise (AttributeError "MCPClient" "server_params"), (c, s))
       end
  else connect_to_server w path (c, s)
       = (Raise (ValueError "Server script must be a .py or .js file"), (c, s)).
Proof.
  unfold connect_to_server.
  destruct (endswith path ".py" || endswith path ".js"); simpl; [|reflexivity].
  destruct (server_params c) as [p|] eqn:Hp.
  - destruct (open_session_launches w c s p Hp) as [tail [Hlog _]].
    unfold bind at 1.
    destruct (open_session w (c, s)) as [[sess|e] [c1 s1]]; simpl in *.
    + unfold bind at 1, session_list_tools_call, on_sys. simpl. ask.
      * exists (tail ++ [EvListTools sess])%list.
        rewrite Hlog, <- app_assoc. reflexivity.
      * unfold bind at 1, modify. simpl.
        assert (Hmore : forall cs : MCPClient * Sys,
                   exists more, log (snd (snd (get_server_info w cs)))
                                = (log (snd cs) ++ more)%list).
        { intros [c2 s2]. run.
          destruct (String.eqb (protocol c2) "http"); simpl.
          - destruct (server_url c2); simpl.
            + ask.
              * eexists. rewrite <- app_assoc. reflexivity.
              * repeat match goal with
                       | |- context [if ?b then _ else _] => destruct b; simpl
                       | |- context [loads ?d ?x] => destruct (loads d x) as [?|[| |]]; simpl
                       end;
                  eexists; rewrite <- ?app_assoc; reflexivity.
            + exists []. rewrite app_nil_r. reflexivity.
          - destruct (String.eqb (protocol c2) "stdio"); simpl;
              exists []; rewrite app_nil_r; reflexivity. }
        match goal with
        | |- context [get_server_info w ?cs] => destruct (Hmore cs) as [more Hm]
        end.
        rewrite Hm. simpl. rewrite Hlog, <- !app_assoc. simpl.
        eexists. reflexivity.
    + exists tail. exact Hlog.
  - run. rewrite Hp. reflexivity.
Qed.

(** ** C9: the HTTP endpoint *)

(** Every HTTP operation sends one request, to the stored endpoint
    followed by the name of the operation. *)
Lemma http_requests (w : World) (c : MCPClient) (s : Sys) (base : option string) :
  protocol c = "http" ->
  server_url c = Some base ->
  requested (log (snd (snd (get_server_info w (c, s)))))
  = (requested (log s) ++ [(format_str base ++ "/server_info")%string])%list
  /\ requested (log (snd (snd (list_tools w (c, s)))))
     = (requested (log s) ++ [(format_str base ++ "/list_tools")%string])%list.
Proof.
  intros Hproto Hurl. split; run; rewrite Hproto, Hurl; simpl.
  - ask.
    + rewrite <- app_assoc, requested_app. reflexivity.
    + repeat match goal with
             | |- context [if ?b then _ else _] => destruct b; simpl
             | |- context [loads ?d ?x] => destruct (loads d x) as [?|[| |]]; simpl
             end;
        rewrite <- ?app_assoc, requested_app; reflexivity.
  - ask.
    + rewrite <- app_assoc, requested_app. reflexivity.
    + repeat match goal with
             | |- context [if ?b then _ else _] => destruct b; simpl
             | |- context [loads ?d ?x] => destruct (loads d x) as [[| | | | |]|[| |]]; simpl
             | |- context [obj_get ?d ?k] => destruct (obj_get d k); simpl
             end;
        rewrite <- ?app_assoc, requested_app; reflexivity.
Qed.

(** C9.  For a non-empty [server_url], the HTTP client holds it without
    its trailing slashes: the stored endpoint does not end in ["/"], it
    is [server_url] up to slashes removed at its end, and
    [get_server_info] and [list_tools] send their request to that
    endpoint followed by [/server_info] and [/list_tools]. *)
Theorem http_endpoint_is_normalized
    (w : World) (u : string) (cmd prog : option string) (s : Sys) :
  u <> "" ->
  let c := http_client (Some (rstrip u "/")) in
  __init__ (Some u) cmd prog "http" s = (Return c, s)
  /\ endswith (rstrip u "/") "/" = false
  /\ (exists k, u = rstrip u "/" ++ replicate k "/")
  /\ requested (log (snd (snd (get_server_info w (c, s)))))
     = (requested (log s) ++ [(rstrip u "/" ++ "/server_info")%string])%list
  /\ requested (log (snd (snd (list_tools w (c, s)))))
     = (requested (log s) ++ [(rstrip u "/" ++ "/list_tools")%string])%list.
Proof.
  intros Hu c.
  split.
  { unfold __init__. simpl. destruct u; [contradiction|]. reflexivity. }
  split; [apply rstrip_slash_clean|].
  split; [apply rstrip_slash_tail|].
  exact (http_requests w c s (Some (rstrip u "/")) eq_refl eq_refl).
Qed.

Lemma http_endpoint_is_normalized_witness :
  __init__ (Some "http://localhost:8000//") None None "http" start
  = (Return (http_client (Some "http://localhost:8000")), start)
  /\ requested (log (snd (snd (get_server_info stdio_world
                                 (http_client (Some "http://localhost:8000"), start)))))
     = ["http://localhost:8000/server_info"].
Proof.
  destruct (http_endpoint_is_normalized stdio_world "http://localhost:8000//"
              None None start ltac:(discriminate))
    as [H1 [_ [_ [H2 _]]]].
  split; [exact H1 | exact H2].
Defined.

(** ** C4: [list_tools] over stdio *)

(** C4, as stated, fails: on the client a first [list_tools] left with
    an open session, a second [list_tools] launches a second subprocess
    and enters two more contexts. *)
Lemma second_list_tools_relaunches :
  raises (fst (list_tools stdio_world (stdio_client_object (Some "python"), start))) = false
  /\ session (fst (snd (list_tools stdio_world (stdio_client_object (Some "python"), start))))
     = Some {| session_read := 0; session_write := 1 |}
  /\ spawned (log (snd (snd (list_tools stdio_world
                              (stdio_client_object (Some "python"), start)))))
     = [uv_server_params]
  /\ spawned (log (snd (snd (list_tools stdio_world
                              (snd (list_tools stdio_world
                                      (stdio_client_object (Some "python"), start)))))))
     = [uv_server_params; uv_server_params]
  /\ List.length (exit_stack (fst (snd (list_tools stdio_world
                              (snd (list_tools stdio_world
                                      (stdio_client_object (Some "python"), start)))))))
     = 4.
Proof. repeat split; reflexivity. Qed.

(** C4 (amended).  On a stdio client in any state, with or without an
    open session, a [list_tools] call that the outside world lets
    through launches the subprocess, opens a session over its streams,
    initializes it, asks it for the tools and returns its answer; the
    session is stored, the two contexts are added to the exit stack, and
    the protocol and launch parameters are kept, so that the next call
    launches again. *)
Theorem list_tools_stdio_launches_every_time
    (w : World) (c : MCPClient) (s : Sys) (p : StdioServerParameters)
    (t : Transport) (r : ListToolsResult) :
  protocol c = "stdio" ->
  server_params c = Some p ->
  stdio_client w (log s) p = inr t ->
  session_initialize w (log s ++ [EvSpawn p; EvSessionOpen t])
    {| session_read := read_stream t; session_write := write_stream t |} = None ->
  session_list_tools w
    (log s ++ [EvSpawn p; EvSessionOpen t;
               EvInitialize {| session_read := read_stream t;
                               session_write := write_stream t |}])
    {| session_read := read_stream t; session_write := write_stream t |} = inr r ->
  exists c' s',
    list_tools w (c, s) = (Return (ToolsResponse r), (c', s'))
    /\ log s'
       = (log s ++ [EvSpawn p; EvSessionOpen t;
                    EvInitialize {| session_read := read_stream t;
                                    session_write := write_stream t |};
                    EvListTools {| session_read := read_stream t;
                                   session_write := write_stream t |}])%list
    /\ mcp_servers_json s' = mcp_servers_json s
    /\ session c' = Some {| session_read := read_stream t; session_write := write_stream t |}
    /\ exit_stack c'
       = (exit_stack c
          ++ [CtxStdio p t;
              CtxSession {| session_read := read_stream t;
                            session_write := write_stream t |}])%list
    /\ protocol c' = "stdio"
    /\ server_params c' = Some p.
Proof.
  intros Hproto Hp Hspawn Hinit Hlist.
  run. rewrite Hproto. simpl. rewrite Hp. simpl. rewrite Hspawn. simpl.
  rewrite <- !app_assoc. simpl. rewrite Hinit. simpl.
  rewrite <- !app_assoc. simpl. rewrite Hlist. simpl.
  do 2 eexists. split; [reflexivity|]. simpl.
  rewrite <- !app_assoc. simpl.
  repeat split; auto.
Qed.

Lemma list_tools_stdio_launches_every_time_witness :
  exists c' s',
    list_tools stdio_world (stdio_client_object (Some "python"), start)
    = (Return (ToolsResponse {| tools := [tool_echo] |}), (c', s'))
    /\ log s'
       = [EvSpawn uv_server_params;
          EvSessionOpen {| read_stream := 0; write_stream := 1 |};
          EvInitialize {| session_read := 0; session_write := 1 |};
          EvListTools {| session_read := 0; session_write := 1 |}]
    /\ mcp_servers_json s' = None
    /\ session c' = Some {| session_read := 0; session_write := 1 |}
    /\ exit_stack c'
       = [CtxStdio uv_server_params {| read_stream := 0; write_stream := 1 |};
          CtxSession {| session_read := 0; session_write := 1 |}]
    /\ protocol c' = "stdio"
    /\ server_params c' = Some uv_server_params.
Proof.
  exact (list_tools_stdio_launches_every_time stdio_world
           (stdio_client_object (Some "python")) start uv_server_params
           {| read_stream := 0; write_stream := 1 |} {| tools := [tool_echo] |}
           eq_refl eq_refl eq_refl eq_refl eq_refl).
Defined.

(** ** C7: loading the registry *)

(** C7.  When the registry file is missing, or holds a text that
    [json.loads] refuses (it is not JSON, or it is nested too deep or
    holds an integer too long for the interpreter),
    [load_saved_servers] returns the empty mapping and raises nothing;
    the file is left as it was. *)
Theorem load_missing_or_corrupt_is_empty (w : World) (s : Sys) :
  mcp_servers_json s = None
  \/ (exists content e,
        mcp_servers_json s = Some content
        /\ loads (json_depth w (log s)) content = Refused e) ->
  fst (load_saved_servers w s) = Return (JObj [])
  /\ mcp_servers_json (snd (load_saved_servers w s)) = mcp_servers_json s.
Proof.
  intros [Hmissing | [content [e [Hfile Hbad]]]];
    unfold load_saved_servers, try_except, bind, path_exists, open_file, json_load,
      st_error, modify, ret; simpl.
  - rewrite Hmissing. simpl. rewrite ?Hmissing. split; reflexivity.
  - rewrite Hfile. simpl. ask.
    + rewrite ?Hfile. split; reflexivity.
    + rewrite Hfile, Hbad. simpl. rewrite ?Hfile. split; reflexivity.
Qed.

Lemma load_missing_or_corrupt_is_empty_witness :
  (fst (load_saved_servers stdio_world start) = Return (JObj [])
   /\ mcp_servers_json (snd (load_saved_servers stdio_world start)) = None)
  /\ (fst (load_saved_servers stdio_world
             {| mcp_servers_json := Some "{ not json"; log := [] |}) = Return (JObj [])
      /\ mcp_servers_json (snd (load_saved_servers stdio_world
             {| mcp_servers_json := Some "{ not json"; log := [] |}))
         = Some "{ not json").
Proof.
  split.
  - apply (load_missing_or_corrupt_is_empty stdio_world start).
    left. reflexivity.
  - apply (load_missing_or_corrupt_is_empty stdio_world
             {| mcp_servers_json := Some "{ not json"; log := [] |}).
    right. exists "{ not json", Malformed. split; reflexivity.
Defined.

(** ** C6: [get_server_info] over HTTP *)

Lemma raise_for_status_error (r : Response) (cs : MCPClient * Sys) :
  (400 <= status_code r < 600)%Z ->
  exists msg, raise_for_status r cs = (Raise (HTTPError (status_code r) msg), cs).
Proof.
  intros H. unfold raise_for_status, raise.
  destruct ((400 <=? status_code r)%Z && (status_code r <? 500)%Z) eqn:E1;
    [eexists; reflexivity|].
  destruct ((500 <=? status_code r)%Z && (status_code r <? 600)%Z) eqn:E2;
    [eexists; reflexivity|].
  exfalso.
  apply andb_false_iff in E1. apply andb_false_iff in E2.
  rewrite Z.leb_gt, Z.ltb_ge in E1, E2. lia.
Qed.

(** C6, as stated, fails: a status outside 2xx that [raise_for_status]
    lets through (here 300) with a JSON body makes [get_server_info]
    return the body and report nothing. *)
Lemma get_server_info_returns_the_body_on_status_300 :
  get_server_info (http_world 300 (dumps_descriptor [("name", "demo")]))
    (http_client (Some "http://localhost:8000"), start)
  = (Return (Some (JObj [("name", JStr "demo")])),
     (http_client (Some "http://localhost:8000"),
      {| mcp_servers_json := None;
         log := [EvHttpGet "http://localhost:8000/server_info"] |})).
Proof. vm_compute. reflexivity. Qed.

(** C6 (amended).  For an HTTP client, when the request fails in
    transport (the server is unreachable) or the server answers with a
    status from 400 to 599, [get_server_info] returns the empty mapping
    and shows the error ([st.error("Error getting server info: ...")],
    the exception being a [requests.RequestException]); no exception
    reaches the caller and the client is unchanged. *)
Theorem get_server_info_reports_failures
    (w : World) (c : MCPClient) (s : Sys) (base : option string) :
  protocol c = "http" ->
  server_url c = Some base ->
  (exists k, requests_get w (log s) (format_str base ++ "/server_info") = inl k)
  \/ (exists r, requests_get w (log s) (format_str base ++ "/server_info") = inr r
                /\ (400 <= status_code r < 600)%Z) ->
  exists e,
    is_RequestException e = true
    /\ get_server_info w (c, s)
       = (Return (Some (JObj [])),
          (c, emit (EvStError "Error getting server info: " e)
                (emit (EvHttpGet (format_str base ++ "/server_info")) s))).
Proof.
  intros Hproto Hurl Hfail.
  unfold get_server_info, bind at 1, self. simpl. rewrite Hproto. simpl.
  unfold try_except, bind at 1, read_attr. rewrite Hurl. unfold ret at 1.
  unfold bind at 1, requests_get_call, on_sys. simpl.
  destruct Hfail as [[k Hk] | [r [Hr Hstatus]]].
  - rewrite Hk. simpl. exists (RequestError k). split; reflexivity.
  - rewrite Hr. simpl. unfold bind at 1.
    match goal with
    | |- context [raise_for_status r ?cs] =>
        destruct (raise_for_status_error r cs Hstatus) as [msg Hmsg]; rewrite Hmsg
    end.
    simpl. exists (HTTPError (status_code r) msg). split; reflexivity.
Qed.

Lemma get_server_info_reports_failures_witness :
  exists e,
    is_RequestException e = true
    /\ get_server_info stdio_world (http_client (Some "http://localhost:8000"), start)
       = (Return (Some (JObj [])),
          (http_client (Some "http://localhost:8000"),
           emit (EvStError "Error getting server info: " e)
             (emit (EvHttpGet "http://localhost:8000/server_info") start))).
Proof.
  apply (get_server_info_reports_failures stdio_world
           (http_client (Some "http://localhost:8000")) start
           (Some "http://localhost:8000") eq_refl eq_refl).
  left. exists ConnectionError. reflexivity.
Defined.

(** ** C5: [list_tools] over HTTP *)




(** ** C8: the registry round trip *)

(** *** Texts *)

Lemma string_app_assoc (a b c : string) : (a ++ b) ++ c = a ++ (b ++ c).
Proof. induction a as [|x a IH]; simpl; [reflexivity | rewrite IH; reflexivity]. Qed.

Lemma string_app_nil_r (a : string) : a ++ "" = a.
Proof. induction a as [|x a IH]; simpl; [reflexivity | rewrite IH; reflexivity]. Qed.

Lemma string_length_app (a b : string) :
  String.length (a ++ b) = String.length a + String.length b.
Proof. induction a as [|x a IH]; simpl; [reflexivity | rewrite IH; reflexivity]. Qed.

Lemma skip_ws_blank (b x : string) : blank b = true -> skip_ws (b ++ x) = skip_ws x.
Proof.
  induction b as [|c b IH]; simpl; [reflexivity|].
  intros H. apply andb_true_iff in H. destruct H as [Hc Hb].
  apply Ascii.eqb_eq in Hc. subst c. simpl. exact (IH Hb).
Qed.

(** *** Strings: the decoder undoes the encoder *)

Lemma scanstring_escape_char (c : ascii) (rest : string) :
  scanstring (escape_char c ++ rest) = cons_code (N_of_ascii c) (scanstring rest).
Proof.
  destruct c as [b0 b1 b2 b3 b4 b5 b6 b7].
  destruct b0, b1, b2, b3, b4, b5, b6, b7; reflexivity.
Qed.

Lemma scanstring_escape (s rest : string) :
  scanstring (escape s ++ String dquote rest) = Some (codes s, rest).
Proof.
  induction s as [|c s IH]; [reflexivity|].
  simpl escape. rewrite string_app_assoc, scanstring_escape_char, IH. reflexivity.
Qed.

Lemma dumps_str_app (s rest : string) :
  dumps_str s ++ rest = String dquote (escape s ++ String dquote rest).
Proof. unfold dumps_str. simpl. rewrite string_app_assoc. reflexivity. Qed.

Lemma scan_once_dumps_str (s rest : string) (fuel room : nat) :
  String.length (dumps_str s) <= fuel ->
  scan_once fuel room (dumps_str s ++ rest) = Decoded (JStr s, rest).
Proof.
  intros Hfuel. rewrite dumps_str_app.
  destruct fuel as [|f]; [unfold dumps_str in Hfuel; simpl in Hfuel; lia|].
  simpl. rewrite scanstring_escape. reflexivity.
Qed.

Lemma skip_ws_dumps_str (s rest : string) :
  skip_ws (dumps_str s ++ rest) = dumps_str s ++ rest.
Proof. rewrite dumps_str_app. reflexivity. Qed.

(** *** Dictionaries *)

Lemma dict_set_fresh {V : Type} (d : pydict V) (k : string) (v : V) :
  ~ In k (dict_keys d) -> dict_set d k v = (d ++ [(k, v)])%list.
Proof.
  induction d as [|[k' v'] d IH]; simpl; intros Hk; [reflexivity|].
  destruct (String.eqb k' k) eqn:E.
  - apply String.eqb_eq in E. tauto.
  - rewrite IH by tauto. reflexivity.
Qed.

Lemma dict_of_pairs_from {V : Type} (ps acc : pydict V) :
  NoDup (dict_keys (acc ++ ps)%list) ->
  fold_left (fun d kv => dict_set d (fst kv) (snd kv)) ps acc = (acc ++ ps)%list.
Proof.
  revert acc. induction ps as [|[k v] ps IH]; intros acc Hnd; simpl.
  - rewrite app_nil_r. reflexivity.
  - unfold dict_keys in Hnd. rewrite map_app in Hnd. simpl in Hnd.
    assert (Hfresh : ~ In k (dict_keys acc)).
    { apply NoDup_remove_2 in Hnd. intros Hin. apply Hnd.
      apply in_or_app. left. exact Hin. }
    rewrite dict_set_fresh by exact Hfresh.
    rewrite IH.
    + rewrite <- app_assoc. reflexivity.
    + unfold dict_keys. rewrite <- app_assoc, map_app. simpl. exact Hnd.
Qed.

Lemma dict_of_pairs_wf {V : Type} (d : pydict V) :
  dict_wf d -> dict_of_pairs d = d.
Proof. intros H. unfold dict_of_pairs. rewrite dict_of_pairs_from; [reflexivity | exact H]. Qed.

Lemma pystr_eqb_eq (a b : pystr) : pystr_eqb a b = true -> a = b.
Proof.
  revert b. induction a as [|x a IH]; intros [|y b]; simpl; intros H;
    try discriminate; [reflexivity|].
  apply andb_true_iff in H. destruct H as [Hx Ha].
  apply N.eqb_eq in Hx. subst y. rewrite (IH b Ha). reflexivity.
Qed.

Lemma codes_inj (a b : string) : codes a = codes b -> a = b.
Proof.
  revert b. induction a as [|x a IH]; intros [|y b]; simpl; intros H;
    try discriminate; [reflexivity|].
  inversion H as [[Hx Ha]].
  rewrite <- (ascii_N_embedding x), <- (ascii_N_embedding y), Hx, (IH b Ha).
  reflexivity.
Qed.

Lemma obj_set_fresh {V : Type} (d : list (pystr * V)) (k : pystr) (v : V) :
  ~ In k (map fst d) -> obj_set d k v = (d ++ [(k, v)])%list.
Proof.
  induction d as [|[k' v'] d IH]; simpl; intros Hk; [reflexivity|].
  destruct (pystr_eqb k' k) eqn:E.
  - apply pystr_eqb_eq in E. tauto.
  - rewrite IH by tauto. reflexivity.
Qed.

Lemma obj_of_pairs_from {V : Type} (ps acc : list (pystr * V)) :
  NoDup (map fst (acc ++ ps)%list) ->
  fold_left (fun d kv => obj_set d (fst kv) (snd kv)) ps acc = (acc ++ ps)%list.
Proof.
  revert acc. induction ps as [|[k v] ps IH]; intros acc Hnd; simpl.
  - rewrite app_nil_r. reflexivity.
  - rewrite map_app in Hnd. simpl in Hnd.
    assert (Hfresh : ~ In k (map fst acc)).
    { apply NoDup_remove_2 in Hnd. intros Hin. apply Hnd.
      apply in_or_app. left. exact Hin. }
    rewrite obj_set_fresh by exact Hfresh.
    rewrite IH.
    + rewrite <- app_assoc. reflexivity.
    + rewrite <- app_assoc, map_app. simpl. exact Hnd.
Qed.

(** The members of the object of a [dict] of the model are not merged:
    its keys are distinct. *)
Lemma obj_of_pairs_codes {V : Type} (d : pydict V) :
  dict_wf d ->
  obj_of_pairs (map (fun kv => (codes (fst kv), snd kv)) d)
  = map (fun kv => (codes (fst kv), snd kv)) d.
Proof.
  intros Hwf. unfold obj_of_pairs. rewrite obj_of_pairs_from; [reflexivity|].
  simpl. rewrite map_map. simpl.
  unfold dict_wf, dict_keys in Hwf.
  induction d as [|[k v] d IH]; simpl; [constructor|].
  inversion Hwf as [|? ? Hk Hd]; subst. constructor.
  - intros Hin. apply Hk. apply in_map_iff in Hin.
    destruct Hin as [[k2 v2] [Heq Hin]]. simpl in Heq.
    apply codes_inj in Heq. subst k2.
    change k with (fst (k, v2)). apply in_map. exact Hin.
  - apply IH. exact Hd.
Qed.

Lemma scan_pairs_step (f room : nat) (s : string) :
  scan_pairs (S f) room s
  = match scanstring s with
    | None => Refused Malformed
    | Some (k, r) =>
        match skip_ws r with
        | String ":" r1 =>
            match scan_once f room (skip_ws r1) with
            | Refused e => Refused e
            | Decoded (v, r2) =>
                match skip_ws r2 with
                | String c3 r3 =>
                    if Ascii.eqb c3 "}" then Decoded ([(k, v)], r3)
                    else if Ascii.eqb c3 "," then
                      match skip_ws r3 with
                      | String c4 r4 =>
                          if Ascii.eqb c4 dquote then
                            match scan_pairs f room r4 with
                            | Decoded (ps, rest) => Decoded ((k, v) :: ps, rest)
                            | Refused e => Refused e
                            end
                          else Refused Malformed
                      | EmptyString => Refused Malformed
                      end
                    else Refused Malformed
                | EmptyString => Refused Malformed
                end
            end
        | _ => Refused Malformed
        end
    end.
Proof. reflexivity. Qed.

Lemma scan_once_object (f room : nat) (r : string) :
  scan_once (S f) (S room) (String "{" r)
  = match skip_ws r with
    | String c1 r1 =>
        if Ascii.eqb c1 "}" then Decoded (JObject [], r1)
        else if Ascii.eqb c1 dquote then
          match scan_pairs f room r1 with
          | Decoded (ps, rest) => Decoded (JObject (obj_of_pairs ps), rest)
          | Refused e => Refused e
          end
        else Refused Malformed
    | EmptyString => Refused Malformed
    end.
Proof. reflexivity. Qed.

Section DictRoundTrip.

Context {V : Type}.
Variables (dump : V -> string) (value : V -> json) (indent outdent : string).
Variable room : nat.
Hypothesis indent_blank : blank indent = true.
Hypothesis outdent_blank : blank outdent = true.

(** The items joined, then the closing line: the same text, item by
    item. *)
Lemma join_items_members (d : pydict V) (kv : string * V) :
  join ("," ++ newline) (map (dumps_item dump indent) (kv :: d))
  ++ newline ++ outdent ++ "}"
  = indent ++ String dquote (members_text dump indent outdent kv d).
Proof.
  revert kv. induction d as [|kv' d IH]; intros kv.
  - simpl join. unfold dumps_item. simpl members_text.
    rewrite !string_app_assoc, dumps_str_app. reflexivity.
  - change (join ("," ++ newline) (map (dumps_item dump indent) (kv :: kv' :: d)))
      with (dumps_item dump indent kv ++ ("," ++ newline)
            ++ join ("," ++ newline) (map (dumps_item dump indent) (kv' :: d))).
    rewrite !string_app_assoc, IH.
    unfold dumps_item. simpl members_text.
    rewrite !string_app_assoc, dumps_str_app. reflexivity.
Qed.

Lemma dumps_dict_members (d : pydict V) (kv : string * V) :
  dumps_dict dump indent outdent (kv :: d)
  = String "{" (newline ++ indent
                ++ String dquote (members_text dump indent outdent kv d)).
Proof.
  unfold dumps_dict. rewrite join_items_members. reflexivity.
Qed.

(** The decoder reads the members back, when it reads every value
    back. *)
Lemma scan_pairs_members (d : pydict V) :
  forall (kv : string * V) (fuel : nat) (rest : string),
    (forall v, In v (map snd (kv :: d)) ->
       forall f r, String.length (dump v) <= f ->
         scan_once f room (dump v ++ r) = Decoded (value v, r)
         /\ skip_ws (dump v ++ r) = dump v ++ r) ->
    String.length (members_text dump indent outdent kv d) <= fuel ->
    scan_pairs fuel room (members_text dump indent outdent kv d ++ rest)
    = Decoded (map (fun kv => (codes (fst kv), value (snd kv))) (kv :: d), rest).
Proof.
  induction d as [|kv' d IH]; intros [k v] fuel rest Hok Hfuel.
  - simpl members_text in *. simpl fst in *. simpl snd in *.
    rewrite !string_length_app in Hfuel. cbn [String.length] in Hfuel.
    rewrite !string_length_app in Hfuel.
    destruct fuel as [|f]; [lia|].
    assert (Hv : forall r, scan_once f room (dump v ++ r) = Decoded (value v, r)
                           /\ skip_ws (dump v ++ r) = dump v ++ r).
    { intros r. apply Hok; [left; reflexivity | unfold newline in Hfuel; lia]. }
    rewrite scan_pairs_step, string_app_assoc. cbn [append].
    rewrite scanstring_escape. cbn [skip_ws is_ws].
    rewrite !string_app_assoc, (proj2 (Hv _)), (proj1 (Hv _)).
    unfold newline. cbn [append skip_ws is_ws]. rewrite ?string_app_assoc.
    rewrite skip_ws_blank by exact outdent_blank. reflexivity.
  - simpl members_text in *. simpl fst in *. simpl snd in *.
    rewrite !string_length_app in Hfuel. cbn [String.length] in Hfuel.
    rewrite !string_length_app in Hfuel. cbn [String.length] in Hfuel.
    rewrite !string_length_app in Hfuel. cbn [String.length] in Hfuel.
    destruct fuel as [|f]; [lia|].
    assert (Hv : forall r, scan_once f room (dump v ++ r) = Decoded (value v, r)
                           /\ skip_ws (dump v ++ r) = dump v ++ r).
    { intros r. apply Hok; [left; reflexivity | unfold newline in Hfuel; lia]. }
    rewrite scan_pairs_step, string_app_assoc. cbn [append].
    rewrite scanstring_escape. cbn [skip_ws is_ws].
    rewrite !string_app_assoc, (proj2 (Hv _)), (proj1 (Hv _)).
    unfold newline. cbn [append skip_ws is_ws Ascii.eqb Bool.eqb].
    rewrite ?string_app_assoc.
    rewrite skip_ws_blank by exact indent_blank. cbn [append skip_ws].
    change (is_ws dquote) with false.
    change (Ascii.eqb dquote dquote) with true. cbv iota.
    rewrite IH.
    + reflexivity.
    + intros v0 Hin. apply Hok. right. exact Hin.
    + unfold newline in Hfuel. cbn [String.length] in Hfuel. lia.
Qed.

(** The decoder reads a dictionary back, one level above its values. *)
Lemma scan_once_dumps_dict (d : pydict V) (fuel : nat) (rest : string) :
  (forall v, In v (map snd d) ->
     forall f r, String.length (dump v) <= f ->
       scan_once f room (dump v ++ r) = Decoded (value v, r)
       /\ skip_ws (dump v ++ r) = dump v ++ r) ->
  dict_wf d ->
  String.length (dumps_dict dump indent outdent d) <= fuel ->
  scan_once fuel (S room) (dumps_dict dump indent outdent d ++ rest)
  = Decoded (of_dict value d, rest)
  /\ skip_ws (dumps_dict dump indent outdent d ++ rest)
     = dumps_dict dump indent outdent d ++ rest.
Proof.
  intros Hok Hwf Hfuel. destruct d as [|kv d].
  - simpl in *. destruct fuel as [|f]; [lia|]. split; reflexivity.
  - rewrite dumps_dict_members in *. cbn [String.length] in Hfuel.
    unfold newline in Hfuel. cbn [append String.length] in Hfuel.
    rewrite string_length_app in Hfuel. cbn [String.length] in Hfuel.
    destruct fuel as [|f]; [lia|].
    split; [|reflexivity].
    cbn [append]. rewrite scan_once_object.
    unfold newline. cbn [append skip_ws is_ws].
    rewrite ?string_app_assoc, skip_ws_blank by exact indent_blank.
    cbn [append skip_ws].
    change (is_ws dquote) with false. cbv iota.
    change (Ascii.eqb dquote "}") with false.
    change (Ascii.eqb dquote dquote) with true. cbv iota.
    rewrite scan_pairs_members; [| exact Hok | lia].
    unfold of_dict, JObj. rewrite map_map. cbn [fst snd].
    rewrite <- (map_map (fun kv => (fst kv, value (snd kv)))
                  (fun kv => (codes (fst kv), snd kv))).
    rewrite obj_of_pairs_codes; [reflexivity|].
    unfold dict_wf, dict_keys in *. rewrite map_map. exact Hwf.
Qed.

End DictRoundTrip.

(** *** The registry *)

Lemma scan_once_dumps_descriptor (d : pydict string) (fuel room : nat) (rest : string) :
  dict_wf d ->
  String.length (dumps_descriptor d) <= fuel ->
  scan_once fuel (S room) (dumps_descriptor d ++ rest) = Decoded (of_descriptor d, rest)
  /\ skip_ws (dumps_descriptor d ++ rest) = dumps_descriptor d ++ rest.
Proof.
  intros Hwf Hfuel.
  apply (scan_once_dumps_dict dumps_str JStr "    " "  " room eq_refl eq_refl);
    [| exact Hwf | exact Hfuel].
  intros v _ f r Hf. split.
  - apply scan_once_dumps_str. exact Hf.
  - apply skip_ws_dumps_str.
Qed.

(** A registry takes two levels of nesting, whatever room is left beyond
    them. *)
Lemma loads_dumps_servers (m : pydict (pydict string)) (room : nat) :
  registry_wf m -> loads (2 + room) (dumps_servers m) = Decoded (of_servers m).
Proof.
  intros [Hwf Hall].
  destruct (scan_once_dumps_dict dumps_descriptor of_descriptor "  " "" (S room)
              eq_refl eq_refl
              m (2 * String.length (dumps_servers m) + 2) "") as [Hscan Hskip].
  - intros d Hin f r Hf. apply scan_once_dumps_descriptor; [|exact Hf].
    apply in_map_iff in Hin. destruct Hin as [kv [Hkv Hin]]. subst d.
    rewrite Forall_forall in Hall. exact (Hall kv Hin).
  - exact Hwf.
  - unfold dumps_servers. lia.
  - rewrite string_app_nil_r in Hscan, Hskip.
    unfold loads. unfold dumps_servers in *. cbn [Nat.add].
    rewrite Hskip, Hscan. reflexivity.
Qed.

(** C8.  For every registry [m] (a [dict] of [dict]s of strings), when
    the file can be opened, [save_servers(m)] succeeds and writes a text
    from which [load_saved_servers()] returns [m], entry for entry and
    field for field; saving what was loaded writes the same text again,
    so the file is left as it is. *)
Theorem save_then_load_round_trip
    (w : World) (m : pydict (pydict string)) (s : Sys) :
  registry_wf m ->
  open_error w (log s) WriteMode = None ->
  open_error w (log s) ReadMode = None ->
  save_servers w m s = (Return true, write_file (dumps_servers m) s)
  /\ load_saved_servers w (write_file (dumps_servers m) s)
     = (Return (of_servers m), write_file (dumps_servers m) s)
  /\ save_servers w m (write_file (dumps_servers m) s)
     = (Return true, write_file (dumps_servers m) s).
Proof.
  intros Hwf Hwrite Hread.
  unfold save_servers, load_saved_servers, try_except, bind, open_file, path_exists,
    json_load, modify, ret. simpl.
  rewrite Hwrite, Hread. simpl.
  unfold json_depth. rewrite (loads_dumps_servers m _ Hwf).
  repeat split; reflexivity.
Qed.

Lemma local_registry_wf : registry_wf local_registry.
Proof.
  split.
  - repeat constructor. simpl. tauto.
  - repeat constructor; simpl; intuition discriminate.
Defined.

Lemma save_then_load_round_trip_witness :
  save_servers stdio_world local_registry start
  = (Return true, write_file (dumps_servers local_registry) start)
  /\ load_saved_servers stdio_world (write_file (dumps_servers local_registry) start)
     = (Return (JObj [("local", JObj [("protocol", JStr "stdio");
                                       ("command", JStr "run");
                                       ("program", JStr "/abs/path/server")])]),
        write_file (dumps_servers local_registry) start)
  /\ save_servers stdio_world local_registry
       (write_file (dumps_servers local_registry) start)
     = (Return true, write_file (dumps_servers local_registry) start).
Proof.
  exact (save_then_load_round_trip stdio_world local_registry start
           local_registry_wf eq_refl eq_refl).
Defined.

(* ================================================================= *)
(** * Further properties of the registry store *)

Ltac run_store :=
  unfold load_saved_servers, save_servers, try_except, bind, path_exists, open_file,
    json_load, st_error, modify, ret, is_Exception; simpl.

(** X1.  [load_saved_servers] never raises and never changes the
    registry file, in any state and whatever the outside world answers:
    it returns a value and leaves the machine as it was, or it returns
    the empty mapping after reporting exactly one error. *)
Theorem load_saved_servers_never_raises (w : World) (s : Sys) :
  exists v s1,
    load_saved_servers w s = (Return v, s1)
    /\ mcp_servers_json s1 = mcp_servers_json s
    /\ (s1 = s
        \/ v = JObj []
           /\ exists e, s1 = emit (EvStError "Error loading saved servers: " e) s).
Proof.
  run_store.
  destruct (mcp_servers_json s) as [content|] eqn:Hfile; simpl.
  - ask.
    + do 2 eexists. split; [reflexivity|]. split; [exact Hfile|].
      right. split; [reflexivity|]. eexists. reflexivity.
    + rewrite Hfile. destruct (loads _ content); simpl.
      * do 2 eexists. split; [reflexivity|]. split; [exact Hfile|]. left. reflexivity.
      * do 2 eexists. split; [reflexivity|]. split; [exact Hfile|].
        right. split; [reflexivity|]. eexists. reflexivity.
  - do 2 eexists. split; [reflexivity|]. split; [exact Hfile|]. left. reflexivity.
Qed.



(** X3.  A save that fails changes nothing on disk.  When the file holds
    the text of a registry [m1] and cannot be opened for writing,
    [save_servers(m2)] returns [False], reports the error once, leaves
    the text of [m1] in the file, and [load_saved_servers] still returns
    [m1]. *)
Theorem failed_save_keeps_the_previous_registry
    (w : World) (m1 m2 : pydict (pydict string)) (s : Sys) (e : exn) :
  registry_wf m1 ->
  mcp_servers_json s = Some (dumps_servers m1) ->
  open_error w (log s) WriteMode = Some e ->
  open_error w (log s ++ [EvStError "Error saving servers: " e]) ReadMode = None ->
  exists s1,
    save_servers w m2 s = (Return false, s1)
    /\ mcp_servers_json s1 = Some (dumps_servers m1)
    /\ reported (log s1) = (reported (log s) ++ [("Error saving servers: ", e)])%list
    /\ load_saved_servers w s1 = (Return (of_servers m1), s1).
Proof.
  intros Hwf Hfile Hwrite Hread.
  exists (emit (EvStError "Error saving servers: " e) s).
  split; [|split; [|split]].
  - run_store. rewrite Hwrite. reflexivity.
  - simpl. exact Hfile.
  - simpl. rewrite reported_app. reflexivity.
  - run_store. rewrite Hfile. simpl. rewrite Hread. simpl.
    unfold json_depth. rewrite Hfile, (loads_dumps_servers m1 _ Hwf). reflexivity.
Qed.

Lemma failed_save_keeps_the_previous_registry_witness :
  exists s1,
    save_servers readonly_world remote_registry
      {| mcp_servers_json := Some (dumps_servers local_registry); log := [] |}
    = (Return false, s1)
    /\ mcp_servers_json s1 = Some (dumps_servers local_registry)
    /\ reported (log s1)
       = ([] ++ [("Error saving servers: ", OSError "Permission denied")])%list
    /\ load_saved_servers readonly_world s1 = (Return (of_servers local_registry), s1).
Proof.
  exact (failed_save_keeps_the_previous_registry readonly_world
           local_registry remote_registry
           {| mcp_servers_json := Some (dumps_servers local_registry); log := [] |}
           (OSError "Permission denied") local_registry_wf eq_refl eq_refl eq_refl).
Defined.

(** *** The text written *)

Lemma string_forall_app (p : ascii -> bool) (a b : string) :
  string_forall p (a ++ b) = string_forall p a && string_forall p b.
Proof.
  induction a as [|c a IH]; simpl; [reflexivity|].
  rewrite IH, andb_assoc. reflexivity.
Qed.

Lemma escape_char_plain (c : ascii) : string_forall plain_char (escape_char c) = true.
Proof. destruct c as [[] [] [] [] [] [] [] []]; reflexivity. Qed.

Lemma escape_plain (s : string) : string_forall plain_char (escape s) = true.
Proof.
  induction s as [|c s IH]; simpl; [reflexivity|].
  rewrite string_forall_app, escape_char_plain, IH. reflexivity.
Qed.

Lemma dumps_str_plain (s : string) : string_forall plain_char (dumps_str s) = true.
Proof.
  unfold dumps_str. cbn [string_forall].
  rewrite string_forall_app, escape_plain. reflexivity.
Qed.

Lemma join_plain (sep : string) (parts : list string) :
  string_forall plain_char sep = true ->
  Forall (fun p => string_forall plain_char p = true) parts ->
  string_forall plain_char (join sep parts) = true.
Proof.
  intros Hsep Hparts.
  induction Hparts as [|p ps Hp Hps IH]; [reflexivity|].
  destruct ps as [|q ps]; [exact Hp|].
  change (join sep (p :: q :: ps)) with (p ++ sep ++ join sep (q :: ps)).
  rewrite !string_forall_app, Hp, Hsep, IH. reflexivity.
Qed.

Lemma dumps_dict_plain {V : Type} (dump : V -> string) (indent outdent : string)
    (d : pydict V) :
  (forall v, string_forall plain_char (dump v) = true) ->
  string_forall plain_char indent = true ->
  string_forall plain_char outdent = true ->
  string_forall plain_char (dumps_dict dump indent outdent d) = true.
Proof.
  intros Hdump Hin Hout.
  destruct d as [|kv d]; [reflexivity|].
  unfold dumps_dict.
  rewrite !string_forall_app, Hout, join_plain.
  - reflexivity.
  - reflexivity.
  - apply Forall_forall. intros x Hx.
    apply in_map_iff in Hx. destruct Hx as [y [Hy _]]. subst x.
    unfold dumps_item.
    rewrite !string_forall_app, Hin, dumps_str_plain, Hdump. reflexivity.
Qed.

(** X4.  Whatever the names and the fields of the registry, the text
    [save_servers] writes holds only printable ASCII characters and line
    feeds: every other character of a name or of a field is written as
    an escape. *)
Theorem saved_file_is_plain_ascii
    (w : World) (m : pydict (pydict string)) (s : Sys) :
  open_error w (log s) WriteMode = None ->
  exists content,
    mcp_servers_json (snd (save_servers w m s)) = Some content
    /\ string_forall plain_char content = true.
Proof.
  intros Hopen. exists (dumps_servers m). split.
  - run_store. rewrite Hopen. reflexivity.
  - unfold dumps_servers. apply dumps_dict_plain; try reflexivity.
    intros d. unfold dumps_descriptor. apply dumps_dict_plain; try reflexivity.
    apply dumps_str_plain.
Qed.

Lemma saved_file_is_plain_ascii_witness :
  exists content,
    mcp_servers_json
      (snd (save_servers stdio_world
              (dict_set [] (String "233"%char "t" ++ String "009"%char "")
                 local_descriptor) start))
    = Some content
    /\ string_forall plain_char content = true.
Proof.
  apply (saved_file_is_plain_ascii stdio_world
           (dict_set [] (String "233"%char "t" ++ String "009"%char "") local_descriptor)
           start).
  reflexivity.
Defined.

(* ================================================================= *)
(** * Further properties of [MCPClient] *)

Ltac grows :=
  unfold only_grows; simpl;
  repeat split; try reflexivity; try assumption;
  first [ exists []; rewrite app_nil_r; reflexivity
        | eexists; rewrite <- ?app_assoc; reflexivity ].

(** Case analysis on everything a method asks. *)
Ltac cases :=
  repeat (cbn [fst snd]; simpl;
    match goal with
    | H : server_params ?c = _ |- context [server_params ?c] => rewrite H
    | H : server_url ?c = _ |- context [server_url ?c] => rewrite H
    | |- context [stdio_client ?w ?l ?p] => destruct (stdio_client w l p) eqn:?
    | |- context [session_initialize ?w ?l ?x] => destruct (session_initialize w l x) eqn:?
    | |- context [session_list_tools ?w ?l ?x] => destruct (session_list_tools w l x) eqn:?
    | |- context [requests_get ?w ?l ?x] => destruct (requests_get w l x) eqn:?
    | |- context [loads ?d ?x] => destruct (loads d x) as [[| | | | |]|[| |]] eqn:?
    | |- context [obj_get ?d ?k] => destruct (obj_get d k) eqn:?
    | |- context [if ?b then _ else _] => destruct b eqn:?
    end).

Lemma get_server_info_only_grows (w : World) (cs : MCPClient * Sys) :
  only_grows cs (snd (get_server_info w cs)).
Proof.
  destruct cs as [c s]. run.
  destruct (server_url c) eqn:Hu; cases; grows.
Qed.

Lemma list_tools_only_grows (w : World) (cs : MCPClient * Sys) :
  only_grows cs (snd (list_tools w cs)).
Proof.
  destruct cs as [c s]. run.
  destruct (server_url c) eqn:Hu; destruct (server_params c) eqn:Hp; cases; grows.
Qed.

Lemma only_grows_trans (a b c : MCPClient * Sys) :
  only_grows a b -> only_grows b c -> only_grows a c.
Proof.
  unfold only_grows.
  intros [[m1 H1] [[l1 H2] [H3 [H4 [H5 [H6 H7]]]]]]
         [[m2 G1] [[l2 G2] [G3 [G4 [G5 [G6 G7]]]]]].
  repeat split; try congruence.
  - exists (m1 ++ m2)%list. rewrite G1, H1, app_assoc. reflexivity.
  - exists (l1 ++ l2)%list. rewrite G2, H2, app_assoc. reflexivity.
Qed.

Lemma connect_to_server_only_grows (w : World) (path : string) (cs : MCPClient * Sys) :
  only_grows cs (snd (connect_to_server w path cs)).
Proof.
  destruct cs as [c s]. run.
  destruct (server_url c) eqn:Hu; destruct (server_params c) eqn:Hp; cases;
    try grows;
    match goal with
    | |- only_grows ?a (snd (get_server_info ?w ?b)) =>
        apply (only_grows_trans a b); [grows | apply get_server_info_only_grows]
    end.
Qed.

(** X5.  No method of [MCPClient] closes or removes anything.  After
    [get_server_info], [list_tools] and [connect_to_server], however they
    end, the exit stack holds what it held before and possibly more
    (no context entered is ever left), the log is the old one and
    possibly more, the registry file is untouched, and [protocol],
    [server_url], [command] and [server_params] are as [__init__] bound
    them. *)
Theorem methods_only_add
    (w : World) (path : string) (c : MCPClient) (s : Sys) :
  only_grows (c, s) (snd (get_server_info w (c, s)))
  /\ only_grows (c, s) (snd (list_tools w (c, s)))
  /\ only_grows (c, s) (snd (connect_to_server w path (c, s))).
Proof.
  split; [|split].
  - apply get_server_info_only_grows.
  - apply list_tools_only_grows.
  - apply connect_to_server_only_grows.
Qed.

(** ** The HTTP branch *)










(** ** The stdio branch *)

(** X9.  Over stdio, [list_tools] catches nothing.  Whichever step
    fails, the launch of the subprocess, [initialize] or the listing,
    its exception is raised to the caller and nothing is reported.
    After a failed launch the client is as it was; after a failed
    [initialize] or a failed listing the client keeps the streams, the
    session that failed and the two contexts entered, which stay on the
    exit stack. *)
Theorem list_tools_stdio_propagates_failures
    (w : World) (c : MCPClient) (s : Sys) (p : StdioServerParameters) :
  protocol c = "stdio" ->
  server_params c = Some p ->
  match stdio_client w (log s) p with
  | inl e => list_tools w (c, s) = (Raise e, (c, emit (EvSpawn p) s))
  | inr t =>
      let sess := {| session_read := read_stream t; session_write := write_stream t |} in
      let c1 := set_session sess
                  (push_context (CtxSession sess)
                     (set_transport t (push_context (CtxStdio p t) c))) in
      let s1 := emit (EvInitialize sess) (emit (EvSessionOpen t) (emit (EvSpawn p) s)) in
      match session_initialize w (log (emit (EvSessionOpen t) (emit (EvSpawn p) s))) sess with
      | Some e => list_tools w (c, s) = (Raise e, (c1, s1))
      | None =>
          match session_list_tools w (log s1) sess with
          | inl e => list_tools w (c, s) = (Raise e, (c1, emit (EvListTools sess) s1))
          | inr found =>
              list_tools w (c, s)
              = (Return (ToolsResponse found), (c1, emit (EvListTools sess) s1))
          end
      end
  end.
Proof.
  intros Hproto Hp. run. rewrite Hproto. simpl. rewrite Hp. simpl.
  ask; [reflexivity|].
  ask; [reflexivity|].
  ask; reflexivity.
Qed.

Lemma list_tools_stdio_propagates_failures_witness :
  list_tools mute_world (stdio_client_object None, start)
  = (Raise (McpError "Connection closed"),
     (set_session {| session_read := 3; session_write := 4 |}
        (push_context (CtxSession {| session_read := 3; session_write := 4 |})
           (set_transport {| read_stream := 3; write_stream := 4 |}
              (push_context
                 (CtxStdio uv_server_params {| read_stream := 3; write_stream := 4 |})
                 (stdio_client_object None)))),
      emit (EvInitialize {| session_read := 3; session_write := 4 |})
        (emit (EvSessionOpen {| read_stream := 3; write_stream := 4 |})
           (emit (EvSpawn uv_server_params) start)))).
Proof.
  exact (list_tools_stdio_propagates_failures mute_world (stdio_client_object None)
           start uv_server_params eq_refl eq_refl).
Defined.

(* ================================================================= *)
(** * Properties of the page *)

(** ** Dictionaries *)

Lemma dict_get_set_same {V : Type} (d : pydict V) (k : string) (v : V) :
  dict_get (dict_set d k v) k = Some v.
Proof.
  induction d as [|[k' v'] d IH]; simpl.
  - rewrite String.eqb_refl. reflexivity.
  - destruct (String.eqb k' k) eqn:E; simpl; rewrite E; [reflexivity | exact IH].
Qed.

Lemma dict_get_set_other {V : Type} (d : pydict V) (k k2 : string) (v : V) :
  k2 <> k -> dict_get (dict_set d k v) k2 = dict_get d k2.
Proof.
  intros Hne. induction d as [|[k' v'] d IH]; simpl.
  - destruct (String.eqb k k2) eqn:E; [|reflexivity].
    apply String.eqb_eq in E. congruence.
  - destruct (String.eqb k' k) eqn:E; simpl.
    + destruct (String.eqb k' k2) eqn:E2; [|reflexivity].
      apply String.eqb_eq in E, E2. congruence.
    + destruct (String.eqb k' k2); [reflexivity | exact IH].
Qed.

Lemma dict_keys_set_present {V : Type} (d : pydict V) (k : string) (v : V) :
  In k (dict_keys d) -> dict_keys (dict_set d k v) = dict_keys d.
Proof.
  induction d as [|[k' v'] d IH]; simpl; intros Hin; [contradiction|].
  destruct (String.eqb k' k) eqn:E; simpl; [reflexivity|].
  destruct Hin as [Heq | Hin].
  - subst k'. rewrite String.eqb_refl in E. discriminate.
  - f_equal. apply IH. exact Hin.
Qed.

Lemma NoDup_snoc {A : Type} (l : list A) (x : A) :
  NoDup l -> ~ In x l -> NoDup (l ++ [x]).
Proof.
  induction l as [|a l IH]; simpl; intros Hnd Hx.
  - constructor; [tauto | constructor].
  - inversion Hnd as [|? ? Ha Hl]; subst. constructor.
    + rewrite in_app_iff. simpl. intuition congruence.
    + apply IH; tauto.
Qed.

Lemma dict_set_wf {V : Type} (d : pydict V) (k : string) (v : V) :
  dict_wf d -> dict_wf (dict_set d k v).
Proof.
  unfold dict_wf. intros Hwf.
  destruct (in_dec string_dec k (dict_keys d)) as [Hin | Hout].
  - rewrite dict_keys_set_present by exact Hin. exact Hwf.
  - rewrite dict_set_fresh by exact Hout.
    unfold dict_keys. rewrite map_app. simpl. apply NoDup_snoc; assumption.
Qed.

Lemma dict_set_Forall {V : Type} (P : V -> Prop) (d : pydict V) (k : string) (v : V) :
  Forall (fun kv => P (snd kv)) d -> P v ->
  Forall (fun kv => P (snd kv)) (dict_set d k v).
Proof.
  intros Hd Hv. induction Hd as [|[k' v'] d Hh Ht IH]; simpl.
  - constructor; [exact Hv | constructor].
  - destruct (String.eqb k' k); constructor; assumption.
Qed.

Lemma dict_del_Forall {V : Type} (P : V -> Prop) (d : pydict V) (k : string) :
  Forall (fun kv => P (snd kv)) d -> Forall (fun kv => P (snd kv)) (dict_del d k).
Proof.
  intros Hd. induction Hd as [|[k' v'] d Hh Ht IH]; simpl; [constructor|].
  destruct (String.eqb k' k); [exact Ht | constructor; assumption].
Qed.

Lemma dict_del_nth {V : Type} (d : pydict V) (i : nat) (k : string) (v : V) :
  dict_wf d -> nth_error d i = Some (k, v) -> dict_del d k = remove_nth i d.
Proof.
  unfold dict_wf, remove_nth. revert i.
  induction d as [|[k' v'] d IH]; intros i Hwf Hnth.
  - destruct i; discriminate.
  - simpl in Hwf. inversion Hwf as [|? ? Hk Hd]; subst.
    destruct i as [|i]; simpl in *.
    + inversion Hnth; subst. rewrite String.eqb_refl. reflexivity.
    + destruct (String.eqb k' k) eqn:E.
      * apply String.eqb_eq in E. subst k'. exfalso. apply Hk.
        apply nth_error_In in Hnth.
        change k with (fst (k, v)). apply in_map. exact Hnth.
      * f_equal. apply IH; assumption.
Qed.

Lemma dict_get_del_same {V : Type} (d : pydict V) (k : string) :
  dict_wf d -> dict_get (dict_del d k) k = None.
Proof.
  unfold dict_wf. induction d as [|[k' v'] d IH]; simpl; intros Hwf; [reflexivity|].
  inversion Hwf as [|? ? Hk Hd]; subst.
  destruct (String.eqb k' k) eqn:E; simpl.
  - apply String.eqb_eq in E. subst k'.
    destruct (dict_get d k) eqn:G; [|reflexivity].
    exfalso. apply Hk. clear -G.
    induction d as [|[k2 v2] d IH]; simpl in *; [discriminate|].
    destruct (String.eqb k2 k) eqn:E2.
    + apply String.eqb_eq in E2. left. exact E2.
    + right. apply IH. exact G.
  - rewrite E. apply IH. exact Hd.
Qed.

Lemma dict_get_del_other {V : Type} (d : pydict V) (k k2 : string) :
  k2 <> k -> dict_get (dict_del d k) k2 = dict_get d k2.
Proof.
  intros Hne. induction d as [|[k' v'] d IH]; simpl; [reflexivity|].
  destruct (String.eqb k' k) eqn:E; simpl.
  - destruct (String.eqb k' k2) eqn:E2; [|reflexivity].
    apply String.eqb_eq in E, E2. congruence.
  - destruct (String.eqb k' k2); [reflexivity | exact IH].
Qed.

Lemma dict_get_of_dict {V : Type} (value : V -> json) (d : pydict V) (k : string) :
  dict_get (map (fun kv => (fst kv, value (snd kv))) d) k
  = option_map value (dict_get d k).
Proof.
  induction d as [|[k' v'] d IH]; simpl; [reflexivity|].
  destruct (String.eqb k' k); [reflexivity | exact IH].
Qed.

Lemma registry_wf_set (m : pydict (pydict string)) (k : string) (d : pydict string) :
  registry_wf m -> dict_wf d -> registry_wf (dict_set m k d).
Proof.
  intros [Hm Hall] Hd. split.
  - apply dict_set_wf. exact Hm.
  - apply (dict_set_Forall (fun d => dict_wf d)); assumption.
Qed.

Lemma registry_ok_set (m : pydict (pydict string)) (k : string) (d : pydict string) :
  registry_ok m = true -> descriptor_ok d = true -> registry_ok (dict_set m k d) = true.
Proof.
  unfold registry_ok. intros Hm Hd.
  induction m as [|[k' v'] m IH]; simpl in *.
  - rewrite Hd. reflexivity.
  - apply andb_true_iff in Hm. destruct Hm as [Hv Hm].
    destruct (String.eqb k' k); simpl.
    + rewrite Hd. exact Hm.
    + rewrite Hv. apply IH. exact Hm.
Qed.

Lemma registry_ok_del (m : pydict (pydict string)) (k : string) :
  registry_ok m = true -> registry_ok (dict_del m k) = true.
Proof.
  unfold registry_ok. intros Hm.
  induction m as [|[k' v'] m IH]; simpl in *; [reflexivity|].
  apply andb_true_iff in Hm. destruct Hm as [Hv Hm].
  destruct (String.eqb k' k); simpl; [exact Hm|].
  rewrite Hv. apply IH. exact Hm.
Qed.

(** ** The form "Add New Server" *)

Lemma lower_HTTP : lower "HTTP" = "http".
Proof. reflexivity. Qed.

Lemma lower_stdio : lower "stdio" = "stdio".
Proof. reflexivity. Qed.

Lemma server_data_fields (f : add_server_form) :
  server_data f
  = match f with
    | FormHTTP _ u => [("protocol", "http"); ("url", u)]
    | FormStdio _ c g => [("protocol", "stdio"); ("command", c); ("program", g)]
    end.
Proof. destruct f; reflexivity. Qed.

Lemma server_data_wf (f : add_server_form) : dict_wf (server_data f).
Proof.
  rewrite server_data_fields. unfold dict_wf.
  destruct f; simpl; repeat constructor; simpl; intuition discriminate.
Qed.

Lemma server_data_ok (f : add_server_form) :
  form_complete f = true -> descriptor_ok (server_data f) = true.
Proof.
  rewrite server_data_fields. destruct f as [n u | n c g]; simpl.
  - destruct (String.eqb n ""), (String.eqb u ""); simpl; intros H;
      try discriminate; reflexivity.
  - destruct (String.eqb n ""), (String.eqb c ""), (String.eqb g ""); simpl; intros H;
      try discriminate; reflexivity.
Qed.

Ltac run_page :=
  unfold add_server, store_server, list_saved_servers, display,
    set_saved_servers, set_client, session_state, in_sys, on_client, bind, ret, raise;
  simpl.

Lemma store_server_runs (w : World) (f : add_server_form) (st : Session) (s : Sys) :
  store_server w f (st, s)
  = match open_error w (log s) WriteMode with
    | None =>
        (Return Rerun,
         ({| saved_servers := dict_set (saved_servers st) (form_name f) (server_data f);
             client := client st;
             shown := shown st
                      ++ [UiSuccess ("Server '" ++ form_name f ++ "' added successfully")] |},
          write_file
            (dumps_servers (dict_set (saved_servers st) (form_name f) (server_data f))) s))
    | Some e =>
        (Return Rendered,
         ({| saved_servers := dict_set (saved_servers st) (form_name f) (server_data f);
             client := client st;
             shown := shown st ++ [UiError "Failed to save the server"] |},
          emit (EvStError "Error saving servers: " e) s))
    end.
Proof. run_page. run_store. ask; reflexivity. Qed.

Lemma add_server_complete (w : World) (f : add_server_form) (ps : Session * Sys) :
  form_complete f = true -> add_server w f ps = store_server w f ps.
Proof.
  unfold add_server.
  destruct f as [n u | n c g]; simpl.
  - destruct (String.eqb n ""), (String.eqb u ""); simpl; intros H;
      try discriminate; reflexivity.
  - destruct (String.eqb n ""), (String.eqb c ""), (String.eqb g ""); simpl; intros H;
      try discriminate; reflexivity.
Qed.

Lemma add_server_incomplete (w : World) (f : add_server_form) (st : Session) (s : Sys) :
  form_complete f = false ->
  exists msg,
    add_server w f (st, s)
    = (Return Rendered,
       ({| saved_servers := saved_servers st; client := client st;
           shown := shown st ++ [UiWarning msg] |}, s)).
Proof.
  unfold add_server.
  destruct f as [n u | n c g]; simpl.
  - destruct (String.eqb n ""), (String.eqb u ""); simpl; intros H;
      try discriminate; eexists; reflexivity.
  - destruct (String.eqb n ""), (String.eqb c ""), (String.eqb g ""); simpl; intros H;
      try discriminate; eexists; reflexivity.
Qed.

(** X10.  A form submitted without a name, without a URL (HTTP), or
    without a command or a program (stdio) stores nothing: the handler
    shows one warning and leaves the registry of the session, the client
    and the registry file as they were, and the page is not restarted. *)
Theorem add_server_incomplete_form_only_warns
    (w : World) (f : add_server_form) (st : Session) (s : Sys) :
  form_complete f = false ->
  exists msg,
    add_server w f (st, s)
    = (Return Rendered,
       ({| saved_servers := saved_servers st; client := client st;
           shown := shown st ++ [UiWarning msg] |}, s)).
Proof.
  unfold add_server.
  destruct f as [n u | n c g]; simpl.
  - destruct (String.eqb n ""), (String.eqb u ""); simpl; intros H;
      try discriminate; eexists; reflexivity.
  - destruct (String.eqb n ""), (String.eqb c ""), (String.eqb g ""); simpl; intros H;
      try discriminate; eexists; reflexivity.
Qed.

Lemma add_server_incomplete_form_only_warns_witness :
  exists msg,
    add_server stdio_world (FormStdio "local" "uv" "") (fresh_session local_registry, start)
    = (Return Rendered,
       ({| saved_servers := local_registry; client := None;
           shown := [] ++ [UiWarning msg] |}, start)).
Proof.
  apply (add_server_incomplete_form_only_warns stdio_world (FormStdio "local" "uv" "")
           (fresh_session local_registry) start).
  reflexivity.
Defined.

(** X11.  A complete form, when the registry file can be written: the
    entry is stored under its name with exactly the fields of the form
    and the protocol in lower case, replacing as a whole an entry of the
    same name and leaving every other name as it was; the whole registry
    is written to the file, the success is shown and the page is
    restarted. *)
Theorem add_server_stores_and_saves
    (w : World) (f : add_server_form) (st : Session) (s : Sys) :
  form_complete f = true ->
  open_error w (log s) WriteMode = None ->
  add_server w f (st, s)
  = (Return Rerun,
     ({| saved_servers := dict_set (saved_servers st) (form_name f) (server_data f);
         client := client st;
         shown := shown st
                  ++ [UiSuccess ("Server '" ++ form_name f ++ "' added successfully")] |},
      write_file
        (dumps_servers (dict_set (saved_servers st) (form_name f) (server_data f))) s))
  /\ dict_get (dict_set (saved_servers st) (form_name f) (server_data f)) (form_name f)
     = Some match f with
            | FormHTTP _ u => [("protocol", "http"); ("url", u)]
            | FormStdio _ c g => [("protocol", "stdio"); ("command", c); ("program", g)]
            end
  /\ forall other,
       other <> form_name f ->
       dict_get (dict_set (saved_servers st) (form_name f) (server_data f)) other
       = dict_get (saved_servers st) other.
Proof.
  intros Hform Hopen. split; [|split].
  - rewrite add_server_complete by exact Hform.
    rewrite store_server_runs, Hopen. reflexivity.
  - rewrite dict_get_set_same, server_data_fields. reflexivity.
  - intros other Hne. apply dict_get_set_other. exact Hne.
Qed.

Lemma add_server_stores_and_saves_witness :
  add_server stdio_world (FormHTTP "remote" "http://localhost:8000")
    (fresh_session local_registry, start)
  = (Return Rerun,
     ({| saved_servers :=
           dict_set local_registry "remote"
             (server_data (FormHTTP "remote" "http://localhost:8000"));
         client := None;
         shown := [] ++ [UiSuccess "Server 'remote' added successfully"] |},
      write_file
        (dumps_servers
           (dict_set local_registry "remote"
              (server_data (FormHTTP "remote" "http://localhost:8000")))) start))
  /\ dict_get
       (dict_set local_registry "remote"
          (server_data (FormHTTP "remote" "http://localhost:8000"))) "remote"
     = Some [("protocol", "http"); ("url", "http://localhost:8000")]
  /\ forall other,
       other <> "remote" ->
       dict_get
         (dict_set local_registry "remote"
            (server_data (FormHTTP "remote" "http://localhost:8000"))) other
       = dict_get local_registry other.
Proof.
  exact (add_server_stores_and_saves stdio_world
           (FormHTTP "remote" "http://localhost:8000")
           (fresh_session local_registry) start eq_refl eq_refl).
Defined.

(** X12.  What the form adds is what the next start of the application
    loads.  After a complete form is submitted on a registry without
    duplicate keys, with the file writable and readable,
    [load_saved_servers] returns the registry of the session, and in it
    the new name is bound to the fields of the form. *)
Theorem added_server_is_loaded_back
    (w : World) (f : add_server_form) (st : Session) (s : Sys) :
  form_complete f = true ->
  registry_wf (saved_servers st) ->
  open_error w (log s) WriteMode = None ->
  open_error w (log s) ReadMode = None ->
  exists st1 s1 members,
    add_server w f (st, s) = (Return Rerun, (st1, s1))
    /\ load_saved_servers w s1 = (Return (JObj members), s1)
    /\ JObj members = of_servers (saved_servers st1)
    /\ dict_get members (form_name f) = Some (of_descriptor (server_data f)).
Proof.
  intros Hform Hwf Hwrite Hread.
  rewrite add_server_complete by exact Hform.
  rewrite store_server_runs, Hwrite.
  do 2 eexists.
  exists (map (fun kv => (fst kv, of_descriptor (snd kv)))
            (dict_set (saved_servers st) (form_name f) (server_data f))).
  split; [reflexivity|]. split; [|split].
  - run_store. rewrite Hread. simpl.
    unfold json_depth. rewrite loads_dumps_servers; [reflexivity|].
    apply registry_wf_set; [exact Hwf | apply server_data_wf].
  - reflexivity.
  - rewrite dict_get_of_dict, dict_get_set_same. reflexivity.
Qed.

Lemma added_server_is_loaded_back_witness :
  exists st1 s1 members,
    add_server stdio_world (FormHTTP "remote" "http://localhost:8000")
      (fresh_session local_registry, start) = (Return Rerun, (st1, s1))
    /\ load_saved_servers stdio_world s1 = (Return (JObj members), s1)
    /\ JObj members = of_servers (saved_servers st1)
    /\ dict_get members "remote"
       = Some (of_descriptor (server_data (FormHTTP "remote" "http://localhost:8000"))).
Proof.
  exact (added_server_is_loaded_back stdio_world
           (FormHTTP "remote" "http://localhost:8000")
           (fresh_session local_registry) start eq_refl local_registry_wf
           eq_refl eq_refl).
Defined.

(** X13.  When the registry file cannot be written, a complete form
    still changes the registry of the session: the entry is stored in
    memory before the save is tried and is not taken back.  The file is
    left as it was, the error of the save is reported,
    "Failed to save the server" is shown and the page is not restarted;
    the session and the file now disagree. *)
Theorem add_server_keeps_the_unsaved_entry
    (w : World) (f : add_server_form) (st : Session) (s : Sys) (e : exn) :
  form_complete f = true ->
  open_error w (log s) WriteMode = Some e ->
  exists st1 s1,
    add_server w f (st, s) = (Return Rendered, (st1, s1))
    /\ dict_get (saved_servers st1) (form_name f) = Some (server_data f)
    /\ mcp_servers_json s1 = mcp_servers_json s
    /\ shown st1 = (shown st ++ [UiError "Failed to save the server"])%list
    /\ reported (log s1) = (reported (log s) ++ [("Error saving servers: ", e)])%list.
Proof.
  intros Hform Hopen.
  rewrite add_server_complete by exact Hform.
  rewrite store_server_runs, Hopen.
  do 2 eexists. split; [reflexivity|]. simpl.
  split; [apply dict_get_set_same|].
  split; [reflexivity|]. split; [reflexivity|].
  rewrite reported_app. reflexivity.
Qed.

Lemma add_server_keeps_the_unsaved_entry_witness :
  exists st1 s1,
    add_server readonly_world (FormHTTP "remote" "http://localhost:8000")
      (fresh_session [], start) = (Return Rendered, (st1, s1))
    /\ dict_get (saved_servers st1) "remote"
       = Some (server_data (FormHTTP "remote" "http://localhost:8000"))
    /\ mcp_servers_json s1 = None
    /\ shown st1 = ([] ++ [UiError "Failed to save the server"])%list
    /\ reported (log s1)
       = ([] ++ [("Error saving servers: ", OSError "Permission denied")])%list.
Proof.
  exact (add_server_keeps_the_unsaved_entry readonly_world
           (FormHTTP "remote" "http://localhost:8000") (fresh_session []) start
           (OSError "Permission denied") eq_refl eq_refl).
Defined.

(** ** The list of saved servers *)

Lemma display_all_runs (evs : list ui_event) (st : Session) (s : Sys) :
  display_all evs (st, s)
  = (Return tt,
     ({| saved_servers := saved_servers st; client := client st;
         shown := shown st ++ evs |}, s)).
Proof.
  revert st. induction evs as [|ev evs IH]; intros st; simpl.
  - unfold ret. rewrite app_nil_r. destruct st; reflexivity.
  - unfold bind, display at 1. simpl. rewrite IH. simpl.
    rewrite <- app_assoc. reflexivity.
Qed.

Lemma display_all_then {A : Type} (evs : list ui_event) (k : Page A)
    (st : Session) (s : Sys) :
  (display_all evs ;;; k) (st, s)
  = k ({| saved_servers := saved_servers st; client := client st;
          shown := shown st ++ evs |}, s).
Proof. unfold bind. rewrite display_all_runs. reflexivity. Qed.

Lemma save_servers_returns (w : World) (m : pydict (pydict string)) (s : Sys) :
  exists saved, fst (save_servers w m s) = Return saved.
Proof. run_store. ask; eexists; reflexivity. Qed.

(** The rows when no Delete button is pressed. *)
Lemma server_rows_no_press (w : World) (items : list (string * pydict string)) :
  forall (k : nat) (st : Session) (s : Sys),
    server_rows w None k items (st, s)
    = (Return Rendered,
       ({| saved_servers := saved_servers st; client := client st;
           shown := shown st ++ flat_map (fun kv => row_texts (fst kv) (snd kv)) items |},
        s)).
Proof.
  induction items as [|[name details] items IH]; intros k st s.
  - simpl. unfold ret. rewrite app_nil_r. destruct st; reflexivity.
  - cbn [server_rows flat_map]. unfold bind at 1. rewrite display_all_runs.
    rewrite IH. cbn [saved_servers client shown fst snd].
    rewrite <- app_assoc. reflexivity.
Qed.

(** The rows when the Delete button of row [k + j] is pressed. *)
Lemma server_rows_press (w : World) (j : nat) :
  forall (items : list (string * pydict string)) (k : nat) (st : Session) (s : Sys)
         (name : string) (details : pydict string),
    nth_error items j = Some (name, details) ->
    exists evs,
      server_rows w (Some (k + j)) k items (st, s)
      = (Return Rerun,
         ({| saved_servers := dict_del (saved_servers st) name; client := client st;
             shown := shown st ++ evs |},
          snd (save_servers w (dict_del (saved_servers st) name) s))).
Proof.
  induction j as [|j IH]; intros items k st s name details Hnth.
  - destruct items as [|[n d] items]; [discriminate|].
    simpl in Hnth. inversion Hnth; subst.
    cbn [server_rows]. unfold bind at 1. rewrite display_all_runs.
    rewrite Nat.add_0_r, Nat.eqb_refl.
    unfold bind, session_state, set_saved_servers, in_sys, ret. simpl.
    destruct (save_servers_returns w (dict_del (saved_servers st) name) s) as [saved Hs].
    destruct (save_servers w (dict_del (saved_servers st) name) s) as [r s1].
    simpl in Hs. subst r. simpl. eexists. reflexivity.
  - destruct items as [|[n d] items]; [discriminate|].
    simpl in Hnth.
    cbn [server_rows]. unfold bind at 1. rewrite display_all_runs.
    assert (Hne : Nat.eqb (k + S j) k = false) by (apply Nat.eqb_neq; lia).
    rewrite Hne.
    replace (k + S j) with (S k + j) by lia.
    destruct (IH items (S k)
                {| saved_servers := saved_servers st; client := client st;
                   shown := shown st ++ row_texts n d |} s name details Hnth)
      as [evs Hrows].
    rewrite Hrows. simpl. exists (row_texts n d ++ evs)%list.
    rewrite <- app_assoc. reflexivity.
Qed.

(** Whatever is pressed, the rows leave the registry as it was or
    without one of its names. *)
Lemma server_rows_registry (w : World) (pressed : option nat)
    (items : list (string * pydict string)) :
  forall (k : nat) (st : Session) (s : Sys),
    saved_servers (fst (snd (server_rows w pressed k items (st, s)))) = saved_servers st
    \/ exists name,
         saved_servers (fst (snd (server_rows w pressed k items (st, s))))
         = dict_del (saved_servers st) name.
Proof.
  induction items as [|[name details] items IH]; intros k st s.
  - left. reflexivity.
  - cbn [server_rows]. rewrite display_all_then.
    destruct (match pressed with Some j => Nat.eqb j k | None => false end).
    + right. exists name.
      unfold bind, session_state, set_saved_servers, in_sys, ret. simpl.
      destruct (save_servers w (dict_del (saved_servers st) name) s) as [[saved|e] s1];
        reflexivity.
    + apply (IH (S k)
               {| saved_servers := saved_servers st; client := client st;
                  shown := shown st ++ row_texts name details |} s).
Qed.

Lemma list_saved_servers_rows (w : World) (pressed : option nat) (st : Session) (s : Sys) :
  saved_servers st <> [] ->
  list_saved_servers w pressed (st, s) = server_rows w pressed 0 (saved_servers st) (st, s).
Proof.
  intros Hne. unfold list_saved_servers, bind, session_state. simpl.
  destruct (saved_servers st); [contradiction | reflexivity].
Qed.

(** X14.  Listing the saved servers without pressing a Delete button
    changes nothing: the registry of the session, the client and the
    machine, file included, are as before; the page shows the four texts
    of each entry in the order of the registry, or the one notice
    "No servers saved yet" when the registry is empty. *)
Theorem listing_changes_nothing (w : World) (st : Session) (s : Sys) :
  list_saved_servers w None (st, s)
  = (Return Rendered,
     ({| saved_servers := saved_servers st; client := client st;
         shown := shown st
                  ++ match saved_servers st with
                     | [] => [UiInfo "No servers saved yet"]
                     | m => flat_map (fun kv => row_texts (fst kv) (snd kv)) m
                     end |}, s)).
Proof.
  destruct (saved_servers st) as [|kv m] eqn:Hm.
  - unfold list_saved_servers, bind, session_state, display, ret. simpl.
    rewrite Hm. simpl. rewrite Hm. reflexivity.
  - rewrite list_saved_servers_rows by (rewrite Hm; discriminate).
    rewrite server_rows_no_press, Hm. reflexivity.
Qed.

(** X15.  Pressing the Delete button of row [i] removes exactly the
    entry of that row: the registry of the session is the old one
    without its element of index [i], in the same order, and the name
    is no longer bound; the client is kept; the page is restarted; and
    the file holds the text of the new registry when it can be written,
    and is left as it was otherwise. *)
Theorem delete_removes_the_row_pressed
    (w : World) (st : Session) (s : Sys) (i : nat)
    (name : string) (details : pydict string) :
  dict_wf (saved_servers st) ->
  nth_error (saved_servers st) i = Some (name, details) ->
  exists st1 s1,
    list_saved_servers w (Some i) (st, s) = (Return Rerun, (st1, s1))
    /\ saved_servers st1 = remove_nth i (saved_servers st)
    /\ dict_get (saved_servers st1) name = None
    /\ client st1 = client st
    /\ mcp_servers_json s1
       = match open_error w (log s) WriteMode with
         | None => Some (dumps_servers (remove_nth i (saved_servers st)))
         | Some _ => mcp_servers_json s
         end.
Proof.
  intros Hwf Hnth.
  rewrite list_saved_servers_rows
    by (intros Hm; rewrite Hm in Hnth; destruct i; discriminate).
  destruct (server_rows_press w i (saved_servers st) 0 st s name details Hnth)
    as [evs Hrows].
  simpl in Hrows. rewrite Hrows.
  do 2 eexists. split; [reflexivity|]. simpl.
  rewrite <- (dict_del_nth (saved_servers st) i name details Hwf Hnth).
  split; [reflexivity|].
  split; [apply dict_get_del_same; exact Hwf|].
  split; [reflexivity|].
  run_store. ask; reflexivity.
Qed.

Lemma delete_removes_the_row_pressed_witness :
  exists st1 s1,
    list_saved_servers stdio_world (Some 0)
      (fresh_session
         (dict_set local_registry "remote"
            (server_data (FormHTTP "remote" "http://localhost:8000"))), start)
    = (Return Rerun, (st1, s1))
    /\ saved_servers st1 = remote_registry
    /\ dict_get (saved_servers st1) "local" = None
    /\ client st1 = None
    /\ mcp_servers_json s1 = Some (dumps_servers remote_registry).
Proof.
  assert (Hwf : dict_wf (dict_set local_registry "remote"
                           (server_data (FormHTTP "remote" "http://localhost:8000")))).
  { apply dict_set_wf. exact (proj1 local_registry_wf). }
  exact (delete_removes_the_row_pressed stdio_world
           (fresh_session
              (dict_set local_registry "remote"
                 (server_data (FormHTTP "remote" "http://localhost:8000"))))
           start 0 "local" local_descriptor Hwf eq_refl).
Defined.

(** X16.  The two handlers that write the registry keep its entries in
    the shape the form gives them.  If every entry is a descriptor as
    the form writes it ([protocol] ["http"] with a non-empty [url], or
    [protocol] ["stdio"] with a non-empty [command] and [program], and
    no other key), this still holds after the form is submitted,
    complete or not, and after the list is shown with any button
    pressed, whether the save succeeds or not. *)
Theorem handlers_keep_the_descriptors
    (w : World) (f : add_server_form) (pressed : option nat)
    (st : Session) (s : Sys) :
  registry_ok (saved_servers st) = true ->
  registry_ok (saved_servers (fst (snd (add_server w f (st, s))))) = true
  /\ registry_ok (saved_servers (fst (snd (list_saved_servers w pressed (st, s))))) = true.
Proof.
  intros Hok. split.
  - destruct (form_complete f) eqn:Hform.
    + rewrite add_server_complete by exact Hform.
      rewrite store_server_runs.
      ask; apply registry_ok_set; try exact Hok; apply server_data_ok; exact Hform.
    + destruct (add_server_incomplete w f st s Hform) as [msg Hadd].
      rewrite Hadd. exact Hok.
  - destruct (saved_servers st) as [|kv m] eqn:Hm.
    + unfold list_saved_servers, bind, session_state, display, ret. simpl.
      rewrite Hm. simpl. rewrite Hm. reflexivity.
    + rewrite list_saved_servers_rows by (rewrite Hm; discriminate).
      destruct (server_rows_registry w pressed (saved_servers st) 0 st s)
        as [Hsame | [name Hdel]].
      * rewrite Hsame, Hm. exact Hok.
      * rewrite Hdel, Hm. apply registry_ok_del. exact Hok.
Qed.

Lemma handlers_keep_the_descriptors_witness :
  registry_ok
    (saved_servers
       (fst (snd (add_server stdio_world (FormHTTP "remote" "http://localhost:8000")
                    (fresh_session local_registry, start))))) = true
  /\ registry_ok
       (saved_servers
          (fst (snd (list_saved_servers stdio_world (Some 0)
                       (fresh_session local_registry, start))))) = true.
Proof.
  exact (handlers_keep_the_descriptors stdio_world
           (FormHTTP "remote" "http://localhost:8000") (Some 0)
           (fresh_session local_registry) start eq_refl).
Defined.

Lemma dict_del_snoc_fresh {V : Type} (d : pydict V) (k : string) (v : V) :
  ~ In k (dict_keys d) -> dict_del (d ++ [(k, v)])%list k = d.
Proof.
  induction d as [|[k' v'] d IH]; simpl; intros Hk.
  - rewrite String.eqb_refl. reflexivity.
  - destruct (String.eqb k' k) eqn:E.
    + apply String.eqb_eq in E. tauto.
    + rewrite IH by tauto. reflexivity.
Qed.

(** X17.  Adding a server under a name that is not yet in the registry
    and then deleting its row, the last one, gives back the registry as
    it was, entry for entry and in the same order, in the session and,
    the file being writable, in the file: it holds the text of the
    registry of before the addition. *)
Theorem add_then_delete_restores_the_registry
    (w : World) (f : add_server_form) (st : Session) (s : Sys) :
  form_complete f = true ->
  ~ In (form_name f) (dict_keys (saved_servers st)) ->
  open_error w (log s) WriteMode = None ->
  exists st1 s1 st2 s2,
    add_server w f (st, s) = (Return Rerun, (st1, s1))
    /\ nth_error (saved_servers st1) (List.length (saved_servers st))
       = Some (form_name f, server_data f)
    /\ list_saved_servers w (Some (List.length (saved_servers st))) (st1, s1)
       = (Return Rerun, (st2, s2))
    /\ saved_servers st2 = saved_servers st
    /\ mcp_servers_json s2 = Some (dumps_servers (saved_servers st)).
Proof.
  intros Hform Hfresh Hopen.
  rewrite add_server_complete by exact Hform.
  rewrite store_server_runs, Hopen.
  rewrite (dict_set_fresh _ _ _ Hfresh).
  assert (Hnth : nth_error (saved_servers st ++ [(form_name f, server_data f)])%list
                   (List.length (saved_servers st))
                 = Some (form_name f, server_data f)).
  { rewrite nth_error_app2 by lia. rewrite Nat.sub_diag. reflexivity. }
  eexists. eexists.
  match goal with
  | |- exists st2 s2, (_, (?a, ?b)) = _ /\ _ =>
      destruct (server_rows_press w (List.length (saved_servers st))
                  (saved_servers a) 0 a b (form_name f) (server_data f) Hnth)
        as [evs Hrows]
  end.
  simpl in Hrows.
  do 2 eexists. split; [reflexivity|]. split; [exact Hnth|].
  rewrite list_saved_servers_rows
    by (simpl; destruct (saved_servers st); discriminate).
  split; [exact Hrows|]. simpl.
  rewrite (dict_del_snoc_fresh _ _ _ Hfresh).
  split; [reflexivity|].
  run_store. rewrite Hopen. reflexivity.
Qed.

Lemma add_then_delete_restores_the_registry_witness :
  exists st1 s1 st2 s2,
    add_server stdio_world (FormHTTP "remote" "http://localhost:8000")
      (fresh_session local_registry, start) = (Return Rerun, (st1, s1))
    /\ nth_error (saved_servers st1) 1
       = Some ("remote", server_data (FormHTTP "remote" "http://localhost:8000"))
    /\ list_saved_servers stdio_world (Some 1) (st1, s1) = (Return Rerun, (st2, s2))
    /\ saved_servers st2 = local_registry
    /\ mcp_servers_json s2 = Some (dumps_servers local_registry).
Proof.
  apply (add_then_delete_restores_the_registry stdio_world
           (FormHTTP "remote" "http://localhost:8000")
           (fresh_session local_registry) start).
  - reflexivity.
  - simpl. intros [H | H]; [discriminate H | exact H].
  - reflexivity.
Defined.

(** ** The two drop-downs *)

Lemma descriptor_ok_shape (d : pydict string) :
  descriptor_ok d = true ->
  (exists u, d = [("protocol", "http"); ("url", u)] /\ u <> "")
  \/ (exists c g,
        d = [("protocol", "stdio"); ("command", c); ("program", g)]
        /\ c <> "" /\ g <> "").
Proof.
  destruct d as [|[k1 p] [|[k2 u] [|[k3 g] [|x d]]]]; simpl; try discriminate; intros H.
  - rewrite !andb_true_iff in H. destruct H as [[[H1 H2] H3] H4].
    apply String.eqb_eq in H1, H2, H3. subst.
    apply negb_true_iff, String.eqb_neq in H4.
    left. exists u. split; [reflexivity | exact H4].
  - rewrite !andb_true_iff in H. destruct H as [[[[[H1 H2] H3] H4] H5] H6].
    apply String.eqb_eq in H1, H2, H3, H5. subst.
    apply negb_true_iff, String.eqb_neq in H4.
    apply negb_true_iff, String.eqb_neq in H6.
    right. exists u, g. split; [reflexivity | split; assumption].
Qed.

(** X18.  Every entry of a registry whose descriptors are as the form
    writes them is offered by exactly one of the two drop-downs: it is
    among the saved HTTP servers or among the saved stdio servers, never
    both, and the fields the page then reads from it, [url] for HTTP,
    [command] and [program] for stdio, are bound and not empty. *)
Theorem saved_servers_split_by_protocol
    (m : pydict (pydict string)) (name : string) (details : pydict string) :
  registry_ok m = true ->
  In (name, details) m ->
  (In (name, details) (http_servers m)
   /\ ~ In (name, details) (stdio_servers m)
   /\ In name (server_options (http_servers m))
   /\ exists u, dict_get details "url" = Some u /\ u <> "")
  \/ (In (name, details) (stdio_servers m)
      /\ ~ In (name, details) (http_servers m)
      /\ In name (server_options (stdio_servers m))
      /\ exists c g,
           dict_get details "command" = Some c
           /\ dict_get details "program" = Some g
           /\ c <> "" /\ g <> "").
Proof.
  intros Hok Hin.
  assert (Hd : descriptor_ok details = true).
  { unfold registry_ok in Hok. rewrite forallb_forall in Hok.
    exact (Hok (name, details) Hin). }
  unfold http_servers, stdio_servers, servers_with_protocol, server_options.
  destruct (descriptor_ok_shape details Hd) as [[u [Hshape Hu]] | [c [g [Hshape [Hc Hg]]]]];
    subst details; [left | right].
  - split; [apply filter_In; split; [exact Hin | reflexivity]|].
    split; [rewrite filter_In; simpl; intros [_ H]; discriminate H|].
    split.
    + apply in_or_app. right. apply in_or_app. left. unfold dict_keys.
      change name with (fst (name, [("protocol", "http"); ("url", u)])).
      apply in_map. apply filter_In. split; [exact Hin | reflexivity].
    + exists u. split; [reflexivity | exact Hu].
  - split; [apply filter_In; split; [exact Hin | reflexivity]|].
    split; [rewrite filter_In; simpl; intros [_ H]; discriminate H|].
    split.
    + apply in_or_app. right. apply in_or_app. left. unfold dict_keys.
      change name
        with (fst (name, [("protocol", "stdio"); ("command", c); ("program", g)])).
      apply in_map. apply filter_In. split; [exact Hin | reflexivity].
    + exists c, g. repeat split; assumption.
Qed.

Lemma saved_servers_split_by_protocol_witness :
  (In ("local", local_descriptor) (http_servers local_registry)
   /\ ~ In ("local", local_descriptor) (stdio_servers local_registry)
   /\ In "local" (server_options (http_servers local_registry))
   /\ exists u, dict_get local_descriptor "url" = Some u /\ u <> "")
  \/ (In ("local", local_descriptor) (stdio_servers local_registry)
      /\ ~ In ("local", local_descriptor) (http_servers local_registry)
      /\ In "local" (server_options (stdio_servers local_registry))
      /\ exists c g,
           dict_get local_descriptor "command" = Some c
           /\ dict_get local_descriptor "program" = Some g
           /\ c <> "" /\ g <> "").
Proof.
  apply (saved_servers_split_by_protocol local_registry "local" local_descriptor).
  - reflexivity.
  - left. reflexivity.
Defined.

(** ** The button "Connect to HTTP Server" *)

Lemma no_cleanup_attribute (c : MCPClient) :
  getattr c "cleanup" = Raise (AttributeError "MCPClient" "cleanup").
Proof.
  unfold getattr, instance_attributes, bound.
  destruct (server_url c), (command c), (server_params c), (stdio c), (write c);
    reflexivity.
Qed.

Lemma init_http (u : string) (s : Sys) :
  u <> "" ->
  __init__ (Some u) None None "http" s = (Return (http_client (Some (rstrip u "/"))), s).
Proof. intros H. destruct u; [contradiction | reflexivity]. Qed.

(** The block when no client is stored yet. *)
Lemma connect_http_fresh (w : World) (z : string -> bool) (u : string)
    (st : Session) (s : Sys) :
  u <> "" ->
  client st = None ->
  connect_http w z u (st, s)
  = match get_server_info w (http_client (Some (rstrip u "/")), s) with
    | (Return info, (c1, s1)) =>
        if json_truthy z info then
          (Raise (TypeError "'coroutine' object is not iterable"),
           ({| saved_servers := saved_servers st; client := Some c1;
               shown := shown st
                        ++ [UiSpinner "Connecting to server...";
                            UiSuccess ("Successfully connected to MCP server at " ++ u);
                            UiSubheader "Server Information";
                            UiJson info;
                            UiSpinner "Fetching available tools...";
                            UiSubheader "Available Tools"] |}, s1))
        else
          (Return tt,
           ({| saved_servers := saved_servers st; client := Some c1;
               shown := shown st
                        ++ [UiSpinner "Connecting to server...";
                            UiError ("Failed to connect to MCP server at " ++ u)] |}, s1))
    | (Raise e, (c1, s1)) =>
        (Raise e,
         ({| saved_servers := saved_servers st; client := Some c1;
             shown := shown st ++ [UiSpinner "Connecting to server..."] |}, s1))
    end.
Proof.
  intros Hu Hnone. unfold connect_http.
  destruct (String.eqb u "") eqn:E; [apply String.eqb_eq in E; contradiction|].
  unfold bind, session_state, in_sys, set_client, display, on_client, ret, raise.
  cbn [fst snd client saved_servers shown]. rewrite Hnone.
  cbn [fst snd client saved_servers shown]. rewrite (init_http u s Hu).
  cbn [fst snd client saved_servers shown].
  destruct (get_server_info w (http_client (Some (rstrip u "/")), s))
    as [[info|e] [c1 s1]]; cbn [fst snd client saved_servers shown]; [|reflexivity].
  destruct (json_truthy z info); cbn [fst snd client saved_servers shown];
    rewrite <- ?app_assoc; reflexivity.
Qed.

(** The block when a client is stored. *)
Lemma connect_http_stored_client
    (w : World) (z : string -> bool) (u : string) (st : Session) (s : Sys)
    (c : MCPClient) :
  u <> "" ->
  client st = Some c ->
  connect_http w z u (st, s) = (Raise (AttributeError "MCPClient" "cleanup"), (st, s)).
Proof.
  intros Hu Hc. destruct st as [m cl sh]. simpl in Hc. subst cl.
  unfold connect_http.
  destruct (String.eqb u "") eqn:E; [apply String.eqb_eq in E; contradiction|].
  unfold bind at 1, session_state. simpl.
  unfold bind at 1, on_client, call_method. simpl.
  rewrite no_cleanup_attribute. reflexivity.
Qed.

(** X19.  Once a client is stored in the session, the button fails
    before doing anything: for every non-empty URL the block raises
    [AttributeError] on [cleanup], the stored client is not replaced,
    nothing is shown, no request is sent and the machine is as it
    was. *)
Theorem connect_http_again_raises
    (w : World) (z : string -> bool) (u : string) (st : Session) (s : Sys)
    (c : MCPClient) :
  u <> "" ->
  client st = Some c ->
  connect_http w z u (st, s) = (Raise (AttributeError "MCPClient" "cleanup"), (st, s))
  /\ requested (log (snd (snd (connect_http w z u (st, s))))) = requested (log s).
Proof.
  intros Hu Hc. rewrite (connect_http_stored_client w z u st s c Hu Hc).
  split; reflexivity.
Qed.

Lemma connect_http_again_raises_witness :
  connect_http stdio_world (fun _ => false) "http://localhost:8000"
    ({| saved_servers := []; client := Some (http_client (Some "http://localhost:8000"));
        shown := [] |}, start)
  = (Raise (AttributeError "MCPClient" "cleanup"),
     ({| saved_servers := []; client := Some (http_client (Some "http://localhost:8000"));
         shown := [] |}, start))
  /\ requested
       (log (snd (snd (connect_http stdio_world (fun _ => false) "http://localhost:8000"
                         ({| saved_servers := [];
                             client := Some (http_client (Some "http://localhost:8000"));
                             shown := [] |}, start)))))
     = requested (log start).
Proof.
  apply (connect_http_again_raises stdio_world (fun _ => false) "http://localhost:8000"
           {| saved_servers := [];
              client := Some (http_client (Some "http://localhost:8000"));
              shown := [] |}
           start (http_client (Some "http://localhost:8000"))).
  - discriminate.
  - reflexivity.
Defined.






(** X22.  Whatever the URL, the session and the answers of the outside
    world, the button sends at most one request, and it is the one for
    [/server_info] at the endpoint without its trailing slashes:
    [/list_tools] is never requested from this block. *)
Theorem connect_http_never_requests_the_tools
    (w : World) (z : string -> bool) (u : string) (st : Session) (s : Sys) :
  requested (log (snd (snd (connect_http w z u (st, s))))) = requested (log s)
  \/ requested (log (snd (snd (connect_http w z u (st, s)))))
     = (requested (log s) ++ [(rstrip u "/" ++ "/server_info")%string])%list.
Proof.
  destruct (String.eqb u "") eqn:E.
  - left. unfold connect_http. rewrite E. reflexivity.
  - apply String.eqb_neq in E.
    destruct (client st) as [c|] eqn:Hc.
    + left. rewrite (connect_http_stored_client w z u st s c E Hc). reflexivity.
    + right. rewrite (connect_http_fresh w z u st s E Hc).
      pose proof (proj1 (http_requests w (http_client (Some (rstrip u "/"))) s
                           (Some (rstrip u "/")) eq_refl eq_refl)) as Hreq.
      simpl in Hreq.
      destruct (get_server_info w (http_client (Some (rstrip u "/")), s))
        as [[info|e] [c1 s1]]; simpl in *; [destruct (json_truthy z info)|]; exact Hreq.
Qed.

(** ** [connect_to_server] *)

(** X23.  [connect_to_server] only checks its argument: two paths that
    both end in [.py] or [.js] give the same result, the same client and
    the same effects, in every state and world.  The path is never part
    of what is launched, and the local [command] computed from it
    ([python] or [node]) is never used. *)
Theorem connect_to_server_ignores_the_path
    (w : World) (path1 path2 : string) (c : MCPClient) (s : Sys) :
  endswith path1 ".py" || endswith path1 ".js" = true ->
  endswith path2 ".py" || endswith path2 ".js" = true ->
  connect_to_server w path1 (c, s) = connect_to_server w path2 (c, s).
Proof.
  intros H1 H2. unfold connect_to_server. rewrite H1, H2. reflexivity.
Qed.

Lemma connect_to_server_ignores_the_path_witness :
  connect_to_server stdio_world "server.py" (stdio_client_object (Some "python"), start)
  = connect_to_server stdio_world "/srv/tool.js" (stdio_client_object (Some "python"), start).
Proof.
  apply (connect_to_server_ignores_the_path stdio_world "server.py" "/srv/tool.js"
           (stdio_client_object (Some "python")) start);
    reflexivity.
Defined.

(** X24.  On a stdio client, when the subprocess starts, [initialize]
    succeeds and the session lists its tools, [connect_to_server]
    returns the fixed mapping [{"action": "server_info"}] and not what
    the server said; in order, it launches the stored parameters, opens
    the session, initializes it, lists the tools and prints, after a
    line feed, "Connected to server with tools:" and their names; the
    client holds the session and the two contexts, left open. *)
Theorem connect_to_server_prints_the_tools
    (w : World) (path : string) (c : MCPClient) (s : Sys)
    (p : StdioServerParameters) (t : Transport) (found : ListToolsResult) :
  endswith path ".py" || endswith path ".js" = true ->
  protocol c = "stdio" ->
  server_params c = Some p ->
  stdio_client w (log s) p = inr t ->
  session_initialize w ((log s ++ [EvSpawn p]) ++ [EvSessionOpen t])
    {| session_read := read_stream t; session_write := write_stream t |} = None ->
  session_list_tools w
    (((log s ++ [EvSpawn p]) ++ [EvSessionOpen t])
     ++ [EvInitialize {| session_read := read_stream t; session_write := write_stream t |}])
    {| session_read := read_stream t; session_write := write_stream t |} = inr found ->
  exists c1 s1,
    connect_to_server w path (c, s)
    = (Return (Some (JObj [("action", JStr "server_info")])), (c1, s1))
    /\ log s1
       = (log s
          ++ [EvSpawn p; EvSessionOpen t;
              EvInitialize {| session_read := read_stream t;
                              session_write := write_stream t |};
              EvListTools {| session_read := read_stream t;
                             session_write := write_stream t |};
              EvPrint (newline ++ "Connected to server with tools:")
                (map tool_name (tools found))])%list
    /\ session c1
       = Some {| session_read := read_stream t; session_write := write_stream t |}
    /\ exit_stack c1
       = (exit_stack c
          ++ [CtxStdio p t;
              CtxSession {| session_read := read_stream t;
                            session_write := write_stream t |}])%list.
Proof.
  intros Hext Hproto Hp Hstdio Hinit Hlist.
  unfold connect_to_server. rewrite Hext. cbn [negb].
  unfold open_session, session_list_tools_call, enter_stdio_client, enter_client_session,
    initialize, read_attr, on_sys, update_self, self, modify, bind, ret. simpl.
  rewrite Hp. simpl. rewrite Hstdio. simpl. rewrite Hinit. simpl. rewrite Hlist. simpl.
  rewrite get_server_info_stdio by exact Hproto.
  do 2 eexists. split; [reflexivity|]. simpl.
  rewrite <- !app_assoc. repeat split; reflexivity.
Qed.

Lemma connect_to_server_prints_the_tools_witness :
  exists c1 s1,
    connect_to_server stdio_world "server.py" (stdio_client_object None, start)
    = (Return (Some (JObj [("action", JStr "server_info")])), (c1, s1))
    /\ log s1
       = ([]
          ++ [EvSpawn uv_server_params;
              EvSessionOpen {| read_stream := 0; write_stream := 1 |};
              EvInitialize {| session_read := 0; session_write := 1 |};
              EvListTools {| session_read := 0; session_write := 1 |};
              EvPrint (newline ++ "Connected to server with tools:") ["echo"]])%list
    /\ session c1 = Some {| session_read := 0; session_write := 1 |}
    /\ exit_stack c1
       = ([]
          ++ [CtxStdio uv_server_params {| read_stream := 0; write_stream := 1 |};
              CtxSession {| session_read := 0; session_write := 1 |}])%list.
Proof.
  exact (connect_to_server_prints_the_tools stdio_world "server.py"
           (stdio_client_object None) start uv_server_params
           {| read_stream := 0; write_stream := 1 |} {| tools := [tool_echo] |}
           eq_refl eq_refl eq_refl eq_refl eq_refl eq_refl).
Defined.
